(** * Terminology mapping and translation engine (routes/terminology.js)

    A shallow embedding of the terminology routes of the FHIR backend:
    the relevance scorer, the forward and reverse mapping resolvers and
    the three handlers ($autocomplete, $translate, $dual-code-lookup),
    together with the properties of the specification that concern them.

    Conventions of the embedding.
    - JavaScript strings are [string]; a character is one code unit and
      [toLowerCase] folds the letters A-Z (the ASCII part of the JS
      function).
    - The Prisma store is a record of lists.  A list is held in the order
      in which the database enumerates it; for the concepts of a code
      system that is the order of the query's [orderBy] (display, then
      code).
    - A handler returns [Ok r] when it answers with [res.json(r)] and
      [Throw e] when it throws [e]. *)

From Stdlib Require Import ZArith String Ascii List Bool Lia Sorted.
From stdpp Require Import gmap strings list.

Import ListNotations.
Local Open Scope string_scope.
Local Open Scope list_scope.
Local Open Scope Z_scope.

(** ** JavaScript values and string primitives *)

Module Js.

(** [c.toLowerCase()] on one code unit. *)
Definition lower_ascii (c : ascii) : ascii :=
  let n := N_of_ascii c in
  if ((65 <=? n) && (n <=? 90))%N then ascii_of_N (n + 32) else c.

(** [s.toLowerCase()] *)
Fixpoint toLowerCase (s : string) : string :=
  match s with
  | EmptyString => EmptyString
  | String c s' => String (lower_ascii c) (toLowerCase s')
  end.

(** [c.toUpperCase()] on one code unit. *)
Definition upper_ascii (c : ascii) : ascii :=
  let n := N_of_ascii c in
  if ((97 <=? n) && (n <=? 122))%N then ascii_of_N (n - 32) else c.

(** [s.toUpperCase()] *)
Fixpoint toUpperCase (s : string) : string :=
  match s with
  | EmptyString => EmptyString
  | String c s' => String (upper_ascii c) (toUpperCase s')
  end.

(** White space and line terminators among the ASCII code units. *)
Definition isWhiteSpace (c : ascii) : bool :=
  let n := N_of_ascii c in
  (((9 <=? n) && (n <=? 13)) || (n =? 32))%N.

Fixpoint trimStart (s : string) : string :=
  match s with
  | EmptyString => EmptyString
  | String c s' => if isWhiteSpace c then trimStart s' else s
  end.

Fixpoint trimEnd (s : string) : string :=
  match s with
  | EmptyString => EmptyString
  | String c s' =>
      match trimEnd s' with
      | EmptyString => if isWhiteSpace c then EmptyString else String c EmptyString
      | r => String c r
      end
  end.

(** [s.trim()] *)
Definition trim (s : string) : string := trimEnd (trimStart s).

(** [s.split(sep)] for a separator of one code unit. *)
Fixpoint split (sep : ascii) (s : string) : list string :=
  match s with
  | EmptyString => [EmptyString]
  | String c s' =>
      if Ascii.eqb c sep then EmptyString :: split sep s'
      else match split sep s' with
           | piece :: pieces => String c piece :: pieces
           | [] => [String c EmptyString]
           end
  end.

(** [l.join(sep)] *)
Definition join (sep : string) (l : list string) : string := String.concat sep l.

(** A string, null or undefined inside a template literal. *)
Definition template (o : option string) : string := default "null" o.

(** [l.slice(0, n)] *)
Definition slice0 {A : Type} (n : Z) (l : list A) : list A :=
  let len := Z.of_nat (length l) in
  let final := if n <? 0 then Z.max (len + n) 0 else Z.min n len in
  firstn (Z.to_nat final) l.




(** [l.sort(compareFn)]: the sort is stable, so it is the insertion of
    each element in front of the first later element that does not have
    to precede it. *)
Section Sort.
Context {A : Type} (compareFn : A -> A -> Z).

Fixpoint insertSorted (a : A) (l : list A) : list A :=
  match l with
  | [] => [a]
  | b :: l' => if compareFn a b <=? 0 then a :: l else b :: insertSorted a l'
  end.

Definition sort (l : list A) : list A := fold_right insertSorted [] l.
End Sort.

(** [s.startsWith(t)] *)
Fixpoint startsWith (s t : string) : bool :=
  match t, s with
  | EmptyString, _ => true
  | String _ _, EmptyString => false
  | String a t', String b s' => Ascii.eqb a b && startsWith s' t'
  end.

(** [s.includes(t)] *)
Fixpoint includes (s t : string) : bool :=
  startsWith s t ||
  match s with
  | EmptyString => false
  | String _ s' => includes s' t
  end.

(** [s === t] on strings. *)
Definition strictEq (s t : string) : bool := String.eqb s t.

(** Truthiness of a string: only the empty string is falsy. *)
Definition truthyStr (s : string) : bool := negb (String.eqb s "").

(** Truthiness of a possibly absent (undefined or null) string. *)
Definition truthy (o : option string) : bool :=
  match o with
  | Some s => truthyStr s
  | None => false
  end.

(** The values a request parameter can carry. *)
Inductive value : Type :=
| VUndefined
| VString (s : string)
| VBoolean (b : bool).

Definition truthyVal (v : value) : bool :=
  match v with
  | VUndefined => false
  | VString s => truthyStr s
  | VBoolean b => b
  end.

(** [a || b] *)
Definition or (a b : value) : value := if truthyVal a then a else b.

Definition ofString (o : option string) : value :=
  match o with Some s => VString s | None => VUndefined end.

Definition ofBoolean (o : option bool) : value :=
  match o with Some b => VBoolean b | None => VUndefined end.

End Js.

(** ** Data model (the Prisma models the routes read) *)

Module Designation.
Record t : Type := mk {
  language : option string;
  value : string;
  use : option string
}.
End Designation.

(** A concept as a query hands it to the route.  [designations] is [None]
    when the relation was not included in the query. *)
Module Concept.
Record t : Type := mk {
  code : string;
  display : option string;
  definition : option string;
  designations : option (list Designation.t)
}.
End Concept.

(** ** Relevance scorer *)

Section Scorer.

Import Js.

(** The contribution of one designation (body of the [for] loop). *)
Definition designationScore (term : string) (d : Designation.t) : Z :=
  let value := toLowerCase (Designation.value d) in
  if strictEq value term then 60
  else if includes value term then 30
  else 0.

Definition calculateRelevanceScore (concept : Concept.t) (searchTerm : string) : Z :=
  let score := 0 in
  let term := toLowerCase searchTerm in
  (* Exact code match gets highest score *)
  let score :=
    if strictEq (toLowerCase (Concept.code concept)) term then score + 100
    else if includes (toLowerCase (Concept.code concept)) term then score + 50
    else score in
  (* Display name matches *)
  let score :=
    if truthy (Concept.display concept) then
      let display := toLowerCase (default "" (Concept.display concept)) in
      if strictEq display term then score + 90
      else if startsWith display term then score + 70
      else if includes display term then score + 40
      else score
    else score in
  (* Definition matches *)
  let score :=
    if truthy (Concept.definition concept) then
      let definition := toLowerCase (default "" (Concept.definition concept)) in
      if includes definition term then score + 20 else score
    else score in
  (* Designation matches *)
  let score :=
    match Concept.designations concept with
    | Some designations =>
        fold_left (fun score d => score + designationScore term d) designations score
    | None => score
    end in
  score.

End Scorer.

(** The scoring rules as the specification words them: every comparison
    is made between the lower-cased texts. *)
Module ScoreSpec.

Import Js.

Definition equalsCI (field term : string) : bool :=
  String.eqb (toLowerCase field) (toLowerCase term).

Definition startsWithCI (field term : string) : bool :=
  startsWith (toLowerCase field) (toLowerCase term).

Definition containsCI (field term : string) : bool :=
  includes (toLowerCase field) (toLowerCase term).

Definition codePart (c : Concept.t) (T : string) : Z :=
  if equalsCI (Concept.code c) T then 100
  else if containsCI (Concept.code c) T then 50
  else 0.

Definition displayPart (c : Concept.t) (T : string) : Z :=
  match Concept.display c with
  | Some d =>
      if equalsCI d T then 90
      else if startsWithCI d T then 70
      else if containsCI d T then 40
      else 0
  | None => 0
  end.

Definition definitionPart (c : Concept.t) (T : string) : Z :=
  match Concept.definition c with
  | Some d => if containsCI d T then 20 else 0
  | None => 0
  end.

Definition designationPart (T : string) (d : Designation.t) : Z :=
  if equalsCI (Designation.value d) T then 60
  else if containsCI (Designation.value d) T then 30
  else 0.

Definition designationsOf (c : Concept.t) : list Designation.t :=
  default [] (Concept.designations c).

Definition sumZ (l : list Z) : Z := fold_right Z.add 0 l.

Definition score (c : Concept.t) (T : string) : Z :=
  codePart c T + displayPart c T + definitionPart c T
  + sumZ (map (designationPart T) (designationsOf c)).

(** "None of code, display, definition or designation values contains T". *)
Definition noFieldContains (c : Concept.t) (T : string) : Prop :=
  containsCI (Concept.code c) T = false
  /\ (forall d, Concept.display c = Some d -> containsCI d T = false)
  /\ (forall d, Concept.definition c = Some d -> containsCI d T = false)
  /\ (forall d, In d (designationsOf c) -> containsCI (Designation.value d) T = false).

(** The display and definition rules as the code guards them: an empty
    text counts as an absent one. *)
Definition guardedDisplay (c : Concept.t) (T : string) : Z :=
  if truthy (Concept.display c) then displayPart c T else 0.

Definition guardedDefinition (c : Concept.t) (T : string) : Z :=
  if truthy (Concept.definition c) then definitionPart c T else 0.

End ScoreSpec.

(** ** The store *)

(** A concept as the store holds it, with all its designations. *)
Module StoredConcept.
Record t : Type := mk {
  code : string;
  display : option string;
  definition : option string;
  designations : list Designation.t
}.

(** What [include: { designations: includeDesignations }] hands over. *)
Definition load (includeDesignations : bool) (c : t) : Concept.t :=
  Concept.mk (code c) (display c) (definition c)
    (if includeDesignations then Some (designations c) else None).
End StoredConcept.

Module CodeSystem.
Record t : Type := mk {
  url : string;
  name : string;
  concepts : list StoredConcept.t
}.
End CodeSystem.

Module MappingTarget.
Record t : Type := mk {
  code : string;
  display : option string;
  equivalence : string;
  comment : option string
}.
End MappingTarget.

Module MappingElement.
Record t : Type := mk {
  code : string;
  display : option string;
  targets : list MappingTarget.t
}.
End MappingElement.

Module MappingGroup.
Record t : Type := mk {
  source : option string;
  target : option string;
  elements : list MappingElement.t
}.
End MappingGroup.

Module ConceptMap.
Record t : Type := mk {
  url : string;
  sourceUri : string;
  targetUri : string;
  groups : list MappingGroup.t
}.
End ConceptMap.

Record Store : Type := mkStore {
  codeSystems : list CodeSystem.t;
  conceptMaps : list ConceptMap.t
}.

(** ** Prisma queries used by the routes *)

Module Prisma.

Import Js.

(** [{ contains: search, mode: 'insensitive' }], read as the search for a
    literal text.  The database matches with ILIKE, in which [%], [_] and
    the backslash are pattern characters; for a term that holds one of
    them the query can select more rows than this test (see
    [Like.literal]). *)
Definition containsInsensitive (field search : string) : bool :=
  includes (toLowerCase field) (toLowerCase search).

Definition containsInsensitiveOpt (field : option string) (search : string) : bool :=
  match field with
  | Some f => containsInsensitive f search
  | None => false
  end.

(** The [where: { OR: [...] }] filter of the autocomplete query. *)
Definition conceptWhere (search : string) (includeDesignations : bool)
    (c : StoredConcept.t) : bool :=
  containsInsensitive (StoredConcept.code c) search
  || containsInsensitiveOpt (StoredConcept.display c) search
  || containsInsensitiveOpt (StoredConcept.definition c) search
  || (includeDesignations
      && existsb (fun d => containsInsensitive (Designation.value d) search)
           (StoredConcept.designations c)).

(** [take: n]: the first [n] rows, or the last [-n] rows when [n] is
    negative. *)
Definition take {A : Type} (n : Z) (rows : list A) : list A :=
  if n <? 0 then skipn (length rows - Z.to_nat (- n))%nat rows
  else firstn (Z.to_nat n) rows.

(** A code system with the concepts the autocomplete query includes. *)
Record CodeSystemWithConcepts : Type := mkCS {
  url : string;
  name : string;
  concepts : list Concept.t
}.

(** [prisma.codeSystem.findUnique({ where: { url }, include: { concepts: ... } })] *)
Definition codeSystem_findUnique (st : Store) (systemUrl search : string)
    (includeDesignations : bool) (n : Z) : option CodeSystemWithConcepts :=
  match find (fun cs => String.eqb (CodeSystem.url cs) systemUrl) (codeSystems st) with
  | Some cs =>
      Some (mkCS (CodeSystem.url cs) (CodeSystem.name cs)
              (map (StoredConcept.load includeDesignations)
                 (take n (List.filter (conceptWhere search includeDesignations)
                            (CodeSystem.concepts cs)))))
  | None => None
  end.

(** [prisma.codeSystemConcept.findFirst({ where: { code, codeSystem: { url } },
    include: { codeSystem: true, designations: true } })] *)
Definition codeSystemConcept_findFirst (st : Store) (code url : string)
    : option (CodeSystem.t * StoredConcept.t) :=
  head (flat_map
          (fun cs =>
             if String.eqb (CodeSystem.url cs) url then
               map (fun c => (cs, c))
                 (List.filter (fun c => String.eqb (StoredConcept.code c) code)
                    (CodeSystem.concepts cs))
             else [])
          (codeSystems st)).

(** [include: { groups: { include: { elements: { where: { code },
    include: { targets: true } } } } }] on one concept map. *)
Definition withElementsWhere (code : string) (cm : ConceptMap.t) : ConceptMap.t :=
  ConceptMap.mk (ConceptMap.url cm) (ConceptMap.sourceUri cm) (ConceptMap.targetUri cm)
    (map (fun g =>
            MappingGroup.mk (MappingGroup.source g) (MappingGroup.target g)
              (List.filter (fun e => String.eqb (MappingElement.code e) code)
                 (MappingGroup.elements g)))
       (ConceptMap.groups cm)).

(** [include: { groups: { include: { elements: { include: { targets:
    { where: { code } } } } } } }] on one concept map. *)
Definition withTargetsWhere (code : string) (cm : ConceptMap.t) : ConceptMap.t :=
  ConceptMap.mk (ConceptMap.url cm) (ConceptMap.sourceUri cm) (ConceptMap.targetUri cm)
    (map (fun g =>
            MappingGroup.mk (MappingGroup.source g) (MappingGroup.target g)
              (map (fun e =>
                      MappingElement.mk (MappingElement.code e) (MappingElement.display e)
                        (List.filter (fun t => String.eqb (MappingTarget.code t) code)
                           (MappingElement.targets e)))
                 (MappingGroup.elements g)))
       (ConceptMap.groups cm)).

(** [prisma.conceptMap.findMany] of the forward resolver. *)
Definition conceptMap_findMany_source (st : Store) (code system : string)
    (targetSystem : option string) : list ConceptMap.t :=
  map (withElementsWhere code)
    (List.filter (fun cm =>
               String.eqb (ConceptMap.sourceUri cm) system
               && (if truthy targetSystem
                   then String.eqb (ConceptMap.targetUri cm) (default "" targetSystem)
                   else true))
       (conceptMaps st)).

(** [prisma.conceptMap.findMany] of the reverse resolver. *)
Definition conceptMap_findMany_target (st : Store) (code system : string)
    : list ConceptMap.t :=
  map (withTargetsWhere code)
    (List.filter (fun cm => String.eqb (ConceptMap.targetUri cm) system) (conceptMaps st)).

End Prisma.

(** ** Translation resolver *)

Record Mapping : Type := mkMapping {
  targetSystem : string;
  targetCode : string;
  targetDisplay : option string;
  equivalence : string;
  comment : option string
}.

Record ReverseMapping : Type := mkReverseMapping {
  sourceSystem : string;
  sourceCode : string;
  sourceDisplay : option string;
  rev_equivalence : string
}.

(** Find mappings for a concept. *)
Definition findMappingsForConcept (st : Store) (code system : string)
    (targetSystem : option string) : list Mapping :=
  let conceptMaps := Prisma.conceptMap_findMany_source st code system targetSystem in
  flat_map (fun conceptMap =>
    flat_map (fun group =>
      flat_map (fun element =>
        map (fun target =>
               {| targetSystem := ConceptMap.targetUri conceptMap;
                  targetCode := MappingTarget.code target;
                  targetDisplay := MappingTarget.display target;
                  equivalence := MappingTarget.equivalence target;
                  comment := MappingTarget.comment target |})
          (MappingElement.targets element))
        (MappingGroup.elements group))
      (ConceptMap.groups conceptMap))
    conceptMaps.

(** Find reverse mappings for a concept. *)
Definition findReverseMappingsForConcept (st : Store) (code system : string)
    : list ReverseMapping :=
  let conceptMaps := Prisma.conceptMap_findMany_target st code system in
  flat_map (fun conceptMap =>
    flat_map (fun group =>
      flat_map (fun element =>
        match MappingElement.targets element with
        | target0 :: _ =>
            [ {| sourceSystem := ConceptMap.sourceUri conceptMap;
                 sourceCode := MappingElement.code element;
                 sourceDisplay := MappingElement.display element;
                 rev_equivalence := MappingTarget.equivalence target0 |} ]
        | [] => []
        end)
        (MappingGroup.elements group))
      (ConceptMap.groups conceptMap))
    conceptMaps.

(** The two lookups as the specification words them, read off the store
    itself rather than off the rows a query returns. *)
Module ResolverSpec.

(** A concept map takes part in a forward lookup when its [sourceUri] is
    the source system and, if a target system is given, its [targetUri]
    is that system. *)
Definition selects (system : string) (targetSystem : option string)
    (cm : ConceptMap.t) : Prop :=
  ConceptMap.sourceUri cm = system
  /\ (forall ts, targetSystem = Some ts -> ts <> "" -> ConceptMap.targetUri cm = ts).

Definition selectsb (system : string) (targetSystem : option string)
    (cm : ConceptMap.t) : bool :=
  String.eqb (ConceptMap.sourceUri cm) system
  && match targetSystem with
     | Some ts => String.eqb ts "" || String.eqb (ConceptMap.targetUri cm) ts
     | None => true
     end.

Definition forwardEdge (cm : ConceptMap.t) (t : MappingTarget.t) : Mapping :=
  mkMapping (ConceptMap.targetUri cm) (MappingTarget.code t) (MappingTarget.display t)
    (MappingTarget.equivalence t) (MappingTarget.comment t).

(** Every target of every element with the code, in every group of every
    selected concept map. *)
Definition forwardEdges (st : Store) (code system : string)
    (targetSystem : option string) : list Mapping :=
  flat_map (fun cm =>
    flat_map (fun g =>
      flat_map (fun e => map (forwardEdge cm) (MappingElement.targets e))
        (List.filter (fun e => String.eqb (MappingElement.code e) code)
           (MappingGroup.elements g)))
      (ConceptMap.groups cm))
    (List.filter (selectsb system targetSystem) (conceptMaps st)).

Definition reverseEdge (cm : ConceptMap.t) (e : MappingElement.t)
    (t : MappingTarget.t) : ReverseMapping :=
  mkReverseMapping (ConceptMap.sourceUri cm) (MappingElement.code e)
    (MappingElement.display e) (MappingTarget.equivalence t).

(** The first target of an element that carries the code, if any. *)
Definition firstMatchingTarget (code : string) (e : MappingElement.t)
    : option MappingTarget.t :=
  find (fun t => String.eqb (MappingTarget.code t) code) (MappingElement.targets e).

(** One edge per element that owns a matching target, labelled by its
    first matching target. *)
Definition reverseEdges (st : Store) (code system : string) : list ReverseMapping :=
  flat_map (fun cm =>
    flat_map (fun g =>
      flat_map (fun e =>
                  match firstMatchingTarget code e with
                  | Some t => [reverseEdge cm e t]
                  | None => []
                  end)
        (MappingGroup.elements g))
      (ConceptMap.groups cm))
    (List.filter (fun cm => String.eqb (ConceptMap.targetUri cm) system) (conceptMaps st)).

End ResolverSpec.

(** ** Handler results *)

Inductive Error : Type :=
| ValidationError (message : string)
| PrismaClientValidationError.

Inductive Outcome (A : Type) : Type :=
| Ok (a : A)
| Throw (e : Error).

Arguments Ok {A} a.
Arguments Throw {A} e.

(** FHIR Parameters, the body of every response. *)
Record Coding : Type := mkCoding {
  coding_system : string;
  coding_code : string;
  coding_display : option string;
  coding_version : option string
}.

#[warnings="-register-all"]
Inductive FhirParameter : Type :=
| PBoolean (name : string) (valueBoolean : bool)
| PInteger (name : string) (valueInteger : Z)
| PDecimal (name : string) (valueDecimal : Z)
| PString (name : string) (valueString : string)
| PStringOpt (name : string) (valueString : option string)
| PCode (name : string) (valueCode : string)
| PUri (name : string) (valueUri : string)
| PCoding (name : string) (valueCoding : Coding)
| PPart (name : string) (part : list FhirParameter).

Definition paramName (p : FhirParameter) : string :=
  match p with
  | PBoolean n _ | PInteger n _ | PDecimal n _ | PString n _ | PStringOpt n _
  | PCode n _ | PUri n _ | PCoding n _ | PPart n _ => n
  end.

(** The parameters of a response that carry a given name. *)
Definition paramsNamed (n : string) (ps : list FhirParameter) : list FhirParameter :=
  List.filter (fun p => String.eqb (paramName p) n) ps.

(** The [result] flag of a response: its first parameter. *)
Definition resultFlag (ps : list FhirParameter) : option bool :=
  match ps with
  | PBoolean "result" b :: _ => Some b
  | _ => None
  end.

(** ** GET /fhir/terminology/$autocomplete *)

Module Autocomplete.

Import Js.

(** [req.query]; [limit] holds the integer that [parseInt(limit)] reads
    from the query string. *)
Record Query : Type := mkQuery {
  search : option string;
  system : option string;
  language : option string;
  limit : option Z;
  includeDesignations : option string;
  includeMappings : option string;
  systems : option string
}.

(** A flag of the query string with the default [true]. *)
Definition flag (o : option string) : bool :=
  match o with
  | None => true
  | Some s => truthyStr s
  end.

Definition systemUrls (systemKey : string) : option string :=
  if String.eqb systemKey "namaste" then Some "https://ayush.gov.in/fhir/CodeSystem/namaste"
  else if String.eqb systemKey "unani" then Some "https://ayush.gov.in/fhir/CodeSystem/unani"
  else if String.eqb systemKey "icd11-tm2" then Some "http://id.who.int/icd/release/11/mms"
  else if String.eqb systemKey "icd11" then Some "https://icd.who.int/browse11/l-m/en"
  else None.

Record Result : Type := mkResult {
  r_system : string;
  r_systemName : string;
  r_code : string;
  r_display : option string;
  r_definition : option string;
  r_score : Z;
  r_terminology : string;
  r_designations : option (list Designation.t);
  r_mappings : option (list Mapping)
}.

Definition parsedLimit (q : Query) : Z := default 20 (limit q).

Definition systemsToSearch (q : Query) : list string :=
  map (fun s => toLowerCase (trim s))
    (split "," (default "namaste,icd11-tm2,unani" (systems q))).

(** One concept of one code system turned into a result. *)
Definition toResult (st : Store) (q : Query) (search systemKey : string)
    (codeSystem : Prisma.CodeSystemWithConcepts) (concept : Concept.t) : Result :=
  {| r_system := Prisma.url codeSystem;
     r_systemName := Prisma.name codeSystem;
     r_code := Concept.code concept;
     r_display := Concept.display concept;
     r_definition := Concept.definition concept;
     r_score := calculateRelevanceScore concept search;
     r_terminology := toUpperCase systemKey;
     r_designations :=
       match Concept.designations concept with
       | Some (d :: ds) => if flag (includeDesignations q) then Some (d :: ds) else None
       | _ => None
       end;
     r_mappings :=
       if flag (includeMappings q) then
         match findMappingsForConcept st (Concept.code concept) (Prisma.url codeSystem) None with
         | [] => None
         | mappings => Some mappings
         end
       else None |}.

(** The body of the loop over [systemsToSearch]: the results one system
    key adds. *)
Definition searchSystem (st : Store) (q : Query) (search systemKey : string) : list Result :=
  match systemUrls systemKey with
  | None => []
  | Some systemUrl =>
      if truthy (system q) && negb (strictEq (default "" (system q)) systemUrl) then []
      else
        match Prisma.codeSystem_findUnique st systemUrl search
                (flag (includeDesignations q)) (Z.min (parsedLimit q) 50) with
        | Some codeSystem =>
            map (toResult st q search systemKey codeSystem) (Prisma.concepts codeSystem)
        | None => []
        end
  end.

(** [results] when the loop is over: first-seen order. *)
Definition collect (st : Store) (q : Query) (search : string) : list Result :=
  flat_map (searchSystem st q search) (systemsToSearch q).

(** [(a, b) => b.score - a.score] *)
Definition byScoreDesc (a b : Result) : Z := r_score b - r_score a.



Definition limitedResults (st : Store) (q : Query) (search : string) : list Result :=
  slice0 (parsedLimit q) (sort byScoreDesc (collect st q search)).

Definition mappingPart (mapping : Mapping) : FhirParameter :=
  PPart "mapping"
    [ PUri "targetSystem" (targetSystem mapping);
      PCode "targetCode" (targetCode mapping);
      PStringOpt "targetDisplay" (targetDisplay mapping);
      PCode "equivalence" (equivalence mapping) ].

Definition designationText (d : Designation.t) : string :=
  template (Designation.language d) +:+ ": " +:+ Designation.value d.

Definition matchPart (index : nat) (result : Result) : FhirParameter :=
  PPart "match"
    ([ PInteger "index" (Z.of_nat index);
       PDecimal "score" (r_score result);
       PCoding "code" (mkCoding (r_system result) (r_code result)
                         (r_display result) (Some "1.0"));
       PString "terminology" (r_terminology result) ]
     ++ (if truthy (r_definition result)
         then [PString "definition" (default "" (r_definition result))] else [])
     ++ (match r_designations result with
         | Some ds => [PString "designations" (join "; " (map designationText ds))]
         | None => []
         end)
     ++ (match r_mappings result with
         | Some ms => [PPart "mappings" (map mappingPart ms)]
         | None => []
         end)).

Definition response (q : Query) (search : string) (limited : list Result) : list FhirParameter :=
  [ PBoolean "result" (0 <? Z.of_nat (length limited));
    PInteger "matches" (Z.of_nat (length limited));
    PString "searchTerm" search;
    PString "systemsSearched" (join ", " (systemsToSearch q)) ]
  ++ imap matchPart limited.

Definition handler (st : Store) (q : Query) : Outcome (list FhirParameter) :=
  match search q with
  | None => Throw (ValidationError "search parameter must be at least 2 characters")
  | Some search =>
      if negb (truthyStr search) || (Z.of_nat (String.length search) <? 2)
      then Throw (ValidationError "search parameter must be at least 2 characters")
      else Ok (response q search (limitedResults st q search))
  end.

End Autocomplete.

(** ** POST /fhir/terminology/$translate *)

Module Translate.

Import Js.

(** One entry of [req.body.parameter]. *)
Record BodyParameter : Type := mkParam {
  name : string;
  valueCode : option string;
  valueUri : option string;
  valueBoolean : option bool
}.

(** The callback of [reduce]: [acc[param.name] = param.valueCode ||
    param.valueUri || param.valueBoolean]. *)
Definition collectParam (acc : gmap string value) (param : BodyParameter)
    : gmap string value :=
  <[ name param :=
       or (or (ofString (valueCode param)) (ofString (valueUri param)))
          (ofBoolean (valueBoolean param)) ]> acc.

(** [req.body.parameter?.reduce(..., {}) || {}] *)
Definition parseParameters (parameter : option (list BodyParameter)) : gmap string value :=
  match parameter with
  | Some ps => fold_left collectParam ps ∅
  | None => ∅
  end.

(** A destructured property: [undefined] when the key is missing. *)
Definition prop (acc : gmap string value) (key : string) : value :=
  default VUndefined (acc !! key).

(** A destructured property with a default value. *)
Definition propOr (acc : gmap string value) (key : string) (dflt : value) : value :=
  match prop acc key with
  | VUndefined => dflt
  | v => v
  end.

(** A value inside a template literal. *)
Definition templateVal (v : value) : string :=
  match v with
  | VUndefined => "undefined"
  | VString s => s
  | VBoolean true => "true"
  | VBoolean false => "false"
  end.

Definition matchPart (mapping : Mapping) : FhirParameter :=
  PPart "match"
    ([ PCode "equivalence" (equivalence mapping);
       PCoding "concept" (mkCoding (targetSystem mapping) (targetCode mapping)
                            (targetDisplay mapping) None) ]
     ++ (if truthy (comment mapping)
         then [PString "comment" (default "" (comment mapping))] else [])).

(** The [targetSystem] argument of the forward lookup: a falsy [target]
    adds no [targetUri] condition to the query. *)
Definition targetSystemOf (target : value) : option string :=
  match target with
  | VString t => Some t
  | _ => None
  end.

Definition notFoundMessage (code system : string) : string :=
  "Code '" +:+ code +:+ "' not found in system '" +:+ system +:+ "'".

Definition noMappingsMessage (code system : string) (target : value) : string :=
  "No mappings found for code '" +:+ code +:+ "' from '" +:+ system +:+ "' to '"
  +:+ (if truthyVal target then templateVal target else "any target system") +:+ "'".

Definition handler (st : Store) (parameter : option (list BodyParameter))
    : Outcome (list FhirParameter) :=
  let acc := parseParameters parameter in
  let code := prop acc "code" in
  let system := prop acc "system" in
  let target := prop acc "target" in
  let reverse := propOr acc "reverse" (VBoolean false) in
  if negb (truthyVal code) || negb (truthyVal system) then
    Throw (ValidationError "code and system parameters are required")
  else
    match code, system with
    | VString code, VString system =>
        (* Find concept in source system *)
        match Prisma.codeSystemConcept_findFirst st code system with
        | None =>
            Ok [ PBoolean "result" false;
                 PString "message" (notFoundMessage code system) ]
        | Some (codeSystem, sourceConcept) =>
            (* Find mappings *)
            match target with
            | VBoolean true => Throw PrismaClientValidationError
            | _ =>
                match findMappingsForConcept st code system (targetSystemOf target) with
                | [] =>
                    Ok [ PBoolean "result" false;
                         PString "message" (noMappingsMessage code system target) ]
                | mappings =>
                    (* Build response with all found mappings *)
                    Ok ([ PBoolean "result" true;
                          PCoding "source"
                            (mkCoding (CodeSystem.url codeSystem)
                               (StoredConcept.code sourceConcept)
                               (StoredConcept.display sourceConcept) None) ]
                        ++ map matchPart mappings)
                end
            end
        end
    | _, _ => Throw PrismaClientValidationError
    end.

(** The usual request body: [code], [system] and, when wanted, [target]
    and [reverse]. *)
Definition body (code system : string) (target : option string) (reverse : option bool)
    : option (list BodyParameter) :=
  Some ([ mkParam "code" (Some code) None None;
          mkParam "system" None (Some system) None ]
        ++ match target with
           | Some t => [mkParam "target" None (Some t) None]
           | None => []
           end
        ++ match reverse with
           | Some b => [mkParam "reverse" None None (Some b)]
           | None => []
           end).

(** The entries of a body other than [reverse]. *)
Definition notReverse (param : BodyParameter) : bool :=
  negb (String.eqb (name param) "reverse").

End Translate.

(** ** GET /fhir/terminology/$dual-code-lookup *)

Module DualCodeLookup.

Import Js.

Record Query : Type := mkQuery {
  namasteCode : option string;
  icd11Code : option string;
  includeDetails : option string;
  includeHierarchy : option string
}.

(** [includeDetails = true] *)
Definition details (q : Query) : bool :=
  match includeDetails q with
  | None => true
  | Some s => truthyStr s
  end.

Definition namasteUrl : string := "https://ayush.gov.in/fhir/CodeSystem/namaste".

Definition icd11Systems : list string :=
  [ "http://id.who.int/icd/release/11/mms"; "https://icd.who.int/browse11/l-m/en" ].

Definition designationText (d : Designation.t) : string :=
  template (Designation.language d) +:+ ": " +:+ Designation.value d.

Definition mappingPart (mapping : Mapping) : FhirParameter :=
  PPart "mapping"
    [ PCoding "targetCode" (mkCoding (targetSystem mapping) (targetCode mapping)
                              (targetDisplay mapping) None);
      PCode "equivalence" (equivalence mapping) ].

Definition reverseMappingPart (mapping : ReverseMapping) : FhirParameter :=
  PPart "reverseMapping"
    [ PCoding "sourceCode" (mkCoding (sourceSystem mapping) (sourceCode mapping)
                              (sourceDisplay mapping) None);
      PCode "equivalence" (rev_equivalence mapping) ].

(** Look up NAMASTE code: what the first [if] pushes. *)
Definition lookupNamaste (st : Store) (q : Query) : list FhirParameter :=
  if truthy (namasteCode q) then
    let namasteCode := default "" (namasteCode q) in
    match Prisma.codeSystemConcept_findFirst st namasteCode namasteUrl with
    | Some (codeSystem, namasteConcept) =>
        [ PPart "namaste"
            ([ PCoding "code" (mkCoding (CodeSystem.url codeSystem)
                                 (StoredConcept.code namasteConcept)
                                 (StoredConcept.display namasteConcept) None) ]
             ++ (if details q && truthy (StoredConcept.definition namasteConcept)
                 then [PString "definition"
                         (default "" (StoredConcept.definition namasteConcept))]
                 else [])
             ++ (match StoredConcept.designations namasteConcept with
                 | d :: ds =>
                     if details q
                     then [PString "designations"
                             (join "; " (map designationText (d :: ds)))]
                     else []
                 | [] => []
                 end)) ]
        (* Find ICD-11 mappings for this NAMASTE code *)
        ++ (match findMappingsForConcept st namasteCode (CodeSystem.url codeSystem) None with
            | [] => []
            | mappings => [PPart "mappedIcd11Codes" (map mappingPart mappings)]
            end)
    | None => []
    end
  else [].

(** The loop over [icd11Systems], left at the first system that knows
    the code. *)
Fixpoint lookupIcd11In (st : Store) (q : Query) (icd11Code : string)
    (systems : list string) : list FhirParameter :=
  match systems with
  | [] => []
  | systemUrl :: rest =>
      match Prisma.codeSystemConcept_findFirst st icd11Code systemUrl with
      | Some (codeSystem, icd11Concept) =>
          [ PPart "icd11"
              ([ PCoding "code" (mkCoding (CodeSystem.url codeSystem)
                                   (StoredConcept.code icd11Concept)
                                   (StoredConcept.display icd11Concept) None) ]
               ++ (if details q && truthy (StoredConcept.definition icd11Concept)
                   then [PString "definition"
                           (default "" (StoredConcept.definition icd11Concept))]
                   else [])) ]
          (* Find reverse mappings (ICD-11 to NAMASTE) *)
          ++ (match findReverseMappingsForConcept st icd11Code systemUrl with
              | [] => []
              | reverseMappings =>
                  [PPart "mappedNamasteCodes" (map reverseMappingPart reverseMappings)]
              end)
      | None => lookupIcd11In st q icd11Code rest
      end
  end.

(** Look up ICD-11 code: what the second [if] pushes. *)
Definition lookupIcd11 (st : Store) (q : Query) : list FhirParameter :=
  if truthy (icd11Code q)
  then lookupIcd11In st q (default "" (icd11Code q)) icd11Systems
  else [].

Definition handler (st : Store) (q : Query) : Outcome (list FhirParameter) :=
  if negb (truthy (namasteCode q)) && negb (truthy (icd11Code q)) then
    Throw (ValidationError "Either namasteCode or icd11Code parameter is required")
  else
    let parameter := lookupNamaste st q ++ lookupIcd11 st q in
    (* the argument of [unshift] is evaluated before the insertion *)
    Ok (PBoolean "result" (1 <? Z.of_nat (length parameter)) :: parameter).

End DualCodeLookup.

(** ** Sample stores and requests *)

Module Sample.

Definition namasteUrl : string := "https://ayush.gov.in/fhir/CodeSystem/namaste".
Definition unaniUrl : string := "https://ayush.gov.in/fhir/CodeSystem/unani".
Definition mmsUrl : string := "http://id.who.int/icd/release/11/mms".

Definition fever : StoredConcept.t :=
  StoredConcept.mk "N001" (Some "Fever (Jwara)") (Some "Raised body temperature")
    [Designation.mk (Some "hi") "Jwara" None].

Definition vatajaJwara : StoredConcept.t :=
  StoredConcept.mk "SR11" (Some "Vataja Jwara") None [].

Definition unmappedFinding : StoredConcept.t :=
  StoredConcept.mk "N900" (Some "Unmapped finding") None [].

Definition feverUnspecified : StoredConcept.t :=
  StoredConcept.mk "MD11.0" (Some "Fever, unspecified") (Some "Fever of unknown cause") [].

Definition feverPattern : StoredConcept.t :=
  StoredConcept.mk "TM26.0" (Some "Fever pattern (TM2)") None [].

Definition namasteToIcd11 : ConceptMap.t :=
  ConceptMap.mk "https://ayush.gov.in/fhir/ConceptMap/namaste-to-icd11" namasteUrl mmsUrl
    [ MappingGroup.mk (Some namasteUrl) (Some mmsUrl)
        [ MappingElement.mk "N001" (Some "Fever (Jwara)")
            [ MappingTarget.mk "MD11.0" (Some "Fever, unspecified") "equivalent" None;
              MappingTarget.mk "TM26.0" (Some "Fever pattern (TM2)") "wider"
                (Some "pattern level") ];
          MappingElement.mk "SR11" (Some "Vataja Jwara")
            [ MappingTarget.mk "TM26.0" (Some "Fever pattern (TM2)") "equivalent" None;
              MappingTarget.mk "TM26.0" (Some "Fever pattern (TM2)") "narrower" None ] ] ].

Definition store : Store :=
  mkStore
    [ CodeSystem.mk namasteUrl "NAMASTE" [fever; unmappedFinding; vatajaJwara];
      CodeSystem.mk mmsUrl "ICD-11 TM2" [feverUnspecified; feverPattern] ]
    [ namasteToIcd11 ].

(** Two code systems with 26 concepts each, all matching the term "ab". *)
Definition letterConcept (i : nat) : StoredConcept.t :=
  StoredConcept.mk (String "A" (String "B" (String (ascii_of_nat (97 + i)) EmptyString)))
    (Some "ab finding") None [].

Definition crowdedStore : Store :=
  mkStore
    [ CodeSystem.mk namasteUrl "NAMASTE" (map letterConcept (seq 0 26));
      CodeSystem.mk unaniUrl "Unani" (map letterConcept (seq 0 26)) ]
    [].

(** [?search=ab&limit=60] *)
Definition wideQuery : Autocomplete.Query :=
  Autocomplete.mkQuery (Some "ab") None None (Some 60) None None None.

(** [?search=%20%20] (two spaces) *)
Definition blankQuery : Autocomplete.Query :=
  Autocomplete.mkQuery (Some "  ") None None None None None None.

(** [?search=fever&systems=namaste] *)
Definition feverQuery : Autocomplete.Query :=
  Autocomplete.mkQuery (Some "fever") None None None None None (Some "namaste").

(** Translate N900, a NAMASTE code without any mapping. *)
Definition translateUnmapped : option (list Translate.BodyParameter) :=
  Translate.body "N900" namasteUrl None None.

(** Translate N001, asking for the reverse direction. *)
Definition translateFeverReverse : list Translate.BodyParameter :=
  [ Translate.mkParam "code" (Some "N001") None None;
    Translate.mkParam "system" None (Some namasteUrl) None;
    Translate.mkParam "reverse" None None (Some true) ].

Definition translateFever : list Translate.BodyParameter :=
  [ Translate.mkParam "code" (Some "N001") None None;
    Translate.mkParam "system" None (Some namasteUrl) None ].

(** [?namasteCode=ZZZZ&icd11Code=MD11.0]: the first code is unknown. *)
Definition lookupUnknownNamaste : DualCodeLookup.Query :=
  DualCodeLookup.mkQuery (Some "ZZZZ") (Some "MD11.0") None None.

(** [?icd11Code=MD11.0] *)
Definition lookupIcd11Only : DualCodeLookup.Query :=
  DualCodeLookup.mkQuery None (Some "MD11.0") None None.

End Sample.

(** ** Search terms without pattern characters *)

Module Like.

(** The characters that an ILIKE pattern does not read literally: the
    wildcards [%] and [_] and the escape character, the backslash. *)
Definition isPatternChar (c : ascii) : bool :=
  let n := N_of_ascii c in
  ((n =? 37) || (n =? 95) || (n =? 92))%N.

(** The term holds no pattern character: the database searches it as the
    text it is. *)
Fixpoint literal (s : string) : bool :=
  match s with
  | EmptyString => true
  | String c s' => negb (isPatternChar c) && literal s'
  end.

(** [text LIKE pattern]: [%] stands for any run of characters, [_] for
    any one character, and the backslash makes the character after it
    literal.  The database rejects a pattern that ends in a lone
    backslash; no text matches it here. *)
Fixpoint matches (pattern : string) : string -> bool :=
  match pattern with
  | EmptyString =>
      fun text => match text with EmptyString => true | String _ _ => false end
  | String c pattern' =>
      if (N_of_ascii c =? 37)%N then
        fix star (text : string) : bool :=
          matches pattern' text
          || match text with
             | EmptyString => false
             | String _ text' => star text'
             end
      else if (N_of_ascii c =? 95)%N then
        fun text =>
          match text with
          | EmptyString => false
          | String _ text' => matches pattern' text'
          end
      else if (N_of_ascii c =? 92)%N then
        match pattern' with
        | EmptyString => fun _ => false
        | String x pattern'' =>
            fun text =>
              match text with
              | EmptyString => false
              | String y text' => Ascii.eqb x y && matches pattern'' text'
              end
        end
      else
        fun text =>
          match text with
          | EmptyString => false
          | String y text' => Ascii.eqb c y && matches pattern' text'
          end
  end.

(** [field ILIKE '%' || search || '%'], the test the database makes for
    [{ contains: search, mode: 'insensitive' }]. *)
Definition ilikeContains (field search : string) : bool :=
  matches (Js.toLowerCase ("%" +:+ search +:+ "%")) (Js.toLowerCase field).

End Like.

(** ** Texts in another letter case *)

Module LetterCase.

Definition upperOpt (o : option string) : option string :=
  option_map Js.toUpperCase o.

Definition upperDesignation (d : Designation.t) : Designation.t :=
  Designation.mk (Designation.language d) (Js.toUpperCase (Designation.value d))
    (Designation.use d).

(** The concept with its code, display, definition and designation values
    in upper case. *)
Definition upperConcept (c : Concept.t) : Concept.t :=
  Concept.mk (Js.toUpperCase (Concept.code c)) (upperOpt (Concept.display c))
    (upperOpt (Concept.definition c))
    (option_map (map upperDesignation) (Concept.designations c)).

End LetterCase.

(** ** Error classes and the error middleware (middleware/errorHandler.js) *)

Module ErrorHandler.

(** An error object, with the properties the middleware looks at.
    [prismaKnown] holds [err instanceof PrismaClientKnownRequestError]. *)
Record Err : Type := mkErr {
  prismaKnown : bool;
  name : string;
  code : option string;
  statusCode : option Z;
  message : string
}.

(** [new FHIRValidationError(message)] *)
Definition newFHIRValidationError (message : string) : Err :=
  mkErr false "FHIRValidationError" (Some "FHIR_VALIDATION_ERROR") (Some 400) message.

(** [new NotFoundError(resourceType, id)] *)
Definition newNotFoundError (resourceType id : string) : Err :=
  mkErr false "NotFoundError" (Some "not-found") (Some 404)
    (resourceType +:+ "/" +:+ id +:+ " not found").

(** [new ValidationError(message)] *)
Definition newValidationError (message : string) : Err :=
  mkErr false "ValidationError" (Some "validation-error") (Some 400) message.

(** The OperationOutcome the middleware sends, with its HTTP status.
    [showsStack] tells whether [diagnostics] carries [err.stack]. *)
Record ErrorResponse : Type := mkResponse {
  status : Z;
  issueCode : string;
  text : string;
  showsStack : bool
}.

Definition truthyNumber (o : option Z) : bool :=
  match o with
  | Some z => negb (z =? 0)
  | None => false
  end.

Definition errorHandler (development : bool) (err : Err) : ErrorResponse :=
  let '(statusCode, errorCode, errorMessage) :=
    (* Handle Prisma errors *)
    if prismaKnown err then
      if Js.strictEq (default "" (code err)) "P2002" then
        (409, "duplicate-key", "Resource already exists")
      else if Js.strictEq (default "" (code err)) "P2025" then
        (404, "not-found", "Resource not found")
      else (400, "database-error", "Database operation failed")
    (* Handle validation errors *)
    else if Js.strictEq (name err) "ValidationError" then
      (400, "validation-error", message err)
    (* Handle FHIR-specific errors *)
    else if Js.strictEq (default "" (code err)) "FHIR_VALIDATION_ERROR" then
      (400, "fhir-validation-error", message err)
    (* Handle other known errors *)
    else if truthyNumber (statusCode err) then
      (default 0 (statusCode err),
       if Js.truthy (code err) then default "" (code err) else "unknown-error",
       message err)
    else (500, "internal-server-error", "Internal server error") in
  mkResponse statusCode errorCode errorMessage development.

End ErrorHandler.

(** ** Request validation and rate limiting (middleware/requestLogger.js) *)

Module RequestLogger.

(** What a middleware does with a request: hand it on, or answer it with
    an OperationOutcome. *)
Inductive Verdict : Type :=
| Next
| Respond (status : Z) (issueCode text : string).

(** The parts of the request that [validateFHIRRequest] reads. *)
Record Request : Type := mkRequest {
  method : string;
  accept : option string;
  contentType : option string
}.

Definition namesJson (header : string) : bool :=
  Js.includes header "application/fhir+json" || Js.includes header "application/json".

Definition validateFHIRRequest (req : Request) : Verdict :=
  (* Check Accept header for FHIR content *)
  if Js.truthy (accept req) && negb (namesJson (default "" (accept req))) then
    Respond 406 "not-acceptable"
      "Accept header must include application/fhir+json or application/json"
  (* Check Content-Type for POST/PUT requests *)
  else if Js.strictEq (method req) "POST" || Js.strictEq (method req) "PUT" then
    if negb (Js.truthy (contentType req))
       || negb (namesJson (default "" (contentType req)))
    then
      Respond 415 "unsupported-media-type"
        "Content-Type must be application/fhir+json or application/json"
    else Next
  else Next.

(** One entry of [rateLimitStore]. *)
Record RateData : Type := mkRateData {
  requests : list Z;
  windowStart : Z
}.

(** The middleware [rateLimit(maxRequests, windowMs)] on one request from
    [ip]: [now] is the value of [Date.now()] and [cleanup] tells whether
    [Math.random() < 0.01].  It returns the verdict and the store it
    leaves. *)
Definition rateLimit (maxRequests windowMs : Z) (ip : string) (now : Z) (cleanup : bool)
    (rateLimitStore : gmap string RateData) : Verdict * gmap string RateData :=
  let windowStart_ := now - windowMs in
  (* Get or create rate limit data for this IP *)
  let rateData := default (mkRateData [] now) (rateLimitStore !! ip) in
  (* Clean old requests *)
  let rateData :=
    mkRateData (List.filter (fun time => windowStart_ <? time) (requests rateData))
      (windowStart rateData) in
  let rateLimitStore := <[ip := rateData]> rateLimitStore in
  (* Check if limit exceeded *)
  if maxRequests <=? Z.of_nat (length (requests rateData)) then
    (Respond 429 "throttled" "Too many requests. Please try again later.",
     rateLimitStore)
  else
    (* Add current request *)
    let rateData := mkRateData (requests rateData ++ [now]) (windowStart rateData) in
    let rateLimitStore := <[ip := rateData]> rateLimitStore in
    (* Clean up old entries periodically *)
    let rateLimitStore :=
      if cleanup then
        filter (fun entry : string * RateData =>
                  ~ (requests (snd entry) = []
                     /\ windowMs * 2 < now - windowStart (snd entry)))
          rateLimitStore
      else rateLimitStore in
    (Next, rateLimitStore).

(** A run of requests from one address, each with its time and its
    cleanup draw; the verdicts come in the order of the requests. *)
Fixpoint serve (maxRequests windowMs : Z) (ip : string) (arrivals : list (Z * bool))
    (rateLimitStore : gmap string RateData) : list Verdict * gmap string RateData :=
  match arrivals with
  | [] => ([], rateLimitStore)
  | (now, cleanup) :: rest =>
      let '(verdict, rateLimitStore) :=
        rateLimit maxRequests windowMs ip now cleanup rateLimitStore in
      let '(verdicts, rateLimitStore) :=
        serve maxRequests windowMs ip rest rateLimitStore in
      (verdict :: verdicts, rateLimitStore)
  end.

(** The request times the store holds for an address. *)
Definition recorded (rateLimitStore : gmap string RateData) (ip : string) : list Z :=
  match rateLimitStore !! ip with
  | Some rateData => requests rateData
  | None => []
  end.

Definition passed (v : Verdict) : bool :=
  match v with
  | Next => true
  | Respond _ _ _ => false
  end.

End RequestLogger.

(** ** The terminology routes behind their middleware

    [router.use(validateFHIRRequest)] runs before every route of the
    terminology router, and [asyncHandler] hands what a handler throws to
    the error middleware. *)

Module TerminologyRouter.

Import ErrorHandler RequestLogger.

Inductive HttpBody : Type :=
| Parameters (parameter : list FhirParameter)
| OperationOutcome (issueCode text : string).

Record HttpResponse : Type := mkHttp {
  httpStatus : Z;
  httpBody : HttpBody
}.

(** What the process brings to a request: whether [NODE_ENV] is
    [development], and the message Prisma puts in the validation error it
    throws. *)
Record Env : Type := mkEnv {
  development : bool;
  prismaMessage : string
}.

(** The error object behind a thrown [Error] of the handlers. *)
Definition errObject (env : Env) (e : Error) : Err :=
  match e with
  | ValidationError message => newValidationError message
  | PrismaClientValidationError =>
      mkErr false "PrismaClientValidationError" None None (prismaMessage env)
  end.

(** [res.json(response)] of a handler, or the answer of [errorHandler]. *)
Definition finish (env : Env) (o : Outcome (list FhirParameter)) : HttpResponse :=
  match o with
  | Ok ps => mkHttp 200 (Parameters ps)
  | Throw e =>
      let r := errorHandler (development env) (errObject env e) in
      mkHttp (status r) (OperationOutcome (issueCode r) (text r))
  end.

Definition route (env : Env) (req : Request)
    (handler : Outcome (list FhirParameter)) : HttpResponse :=
  match validateFHIRRequest req with
  | Respond status issueCode text => mkHttp status (OperationOutcome issueCode text)
  | Next => finish env handler
  end.

(** GET /fhir/terminology/$autocomplete *)
Definition getAutocomplete (env : Env) (st : Store)
    (accept contentType : option string) (q : Autocomplete.Query) : HttpResponse :=
  route env (mkRequest "GET" accept contentType) (Autocomplete.handler st q).

(** POST /fhir/terminology/$translate *)
Definition postTranslate (env : Env) (st : Store)
    (accept contentType : option string)
    (parameter : option (list Translate.BodyParameter)) : HttpResponse :=
  route env (mkRequest "POST" accept contentType) (Translate.handler st parameter).

(** GET /fhir/terminology/$dual-code-lookup *)
Definition getDualCodeLookup (env : Env) (st : Store)
    (accept contentType : option string) (q : DualCodeLookup.Query) : HttpResponse :=
  route env (mkRequest "GET" accept contentType) (DualCodeLookup.handler st q).

End TerminologyRouter.

(** ** POST /fhir/ConceptMap/:id/$translate *)

Module ConceptMapRoute.

Import Js ErrorHandler.

(** The concept maps of the store with their ids. *)
Definition Table : Type := list (string * ConceptMap.t).

(** [prisma.conceptMap.findUnique({ where: { id }, include: ... })] *)
Definition conceptMap_findUnique (table : Table) (id code : string) : option ConceptMap.t :=
  option_map (fun row => Prisma.withElementsWhere code (snd row))
    (find (fun row => String.eqb (fst row) id) table).

(** The callback of [reduce]: [acc[param.name] = param.valueCode ||
    param.valueUri]. *)
Definition collectParam (acc : gmap string value) (param : Translate.BodyParameter)
    : gmap string value :=
  <[ Translate.name param :=
       or (ofString (Translate.valueCode param)) (ofString (Translate.valueUri param)) ]> acc.

Definition parseParameters (parameter : option (list Translate.BodyParameter))
    : gmap string value :=
  match parameter with
  | Some ps => fold_left collectParam ps ∅
  | None => ∅
  end.

(** The parameters of this route are strings or undefined. *)
Definition asString (v : value) : string :=
  match v with
  | VString s => s
  | _ => ""
  end.

(** The [match] entry of a response with [result = true]. *)
Record Match : Type := mkMatch {
  matchEquivalence : string;
  matchSystem : string;
  matchCode : option string;
  matchDisplay : option string
}.

Inductive Reply : Type :=
| NoMatch
| Matched (m : Match)
| Raise (e : Err).

(** The loop that finds the matching element: the first element of the
    first group that has one. *)
Fixpoint matchingElement (groups : list MappingGroup.t) : option MappingElement.t :=
  match groups with
  | [] => None
  | group :: rest =>
      match MappingGroup.elements group with
      | element :: _ => Some element
      | [] => matchingElement rest
      end
  end.

Definition handler (table : Table) (id : string)
    (parameter : option (list Translate.BodyParameter)) : Reply :=
  let acc := parseParameters parameter in
  let code := Translate.prop acc "code" in
  let system := Translate.prop acc "system" in
  let target := Translate.prop acc "target" in
  let reverse := Translate.propOr acc "reverse" (VBoolean false) in
  if negb (truthyVal code) || negb (truthyVal system) then
    Raise (newValidationError "code and system parameters are required")
  else
    (* Find the ConceptMap *)
    match conceptMap_findUnique table id (asString code) with
    | None => Raise (newNotFoundError "ConceptMap" id)
    | Some conceptMap =>
        (* Find matching element *)
        match matchingElement (ConceptMap.groups conceptMap) with
        | None => NoMatch
        | Some matchingElement =>
            let target0 := head (MappingElement.targets matchingElement) in
            Matched
              {| matchEquivalence :=
                   match target0 with
                   | Some t =>
                       if truthyStr (MappingTarget.equivalence t)
                       then MappingTarget.equivalence t else "equivalent"
                   | None => "equivalent"
                   end;
                 matchSystem := ConceptMap.targetUri conceptMap;
                 matchCode := option_map MappingTarget.code target0;
                 matchDisplay :=
                   match target0 with
                   | Some t => MappingTarget.display t
                   | None => None
                   end |}
        end
    end.

End ConceptMapRoute.

(** ** API keys and permissions (middleware/auth.js) *)

Module Auth.

Import RequestLogger.

Record User : Type := mkUser {
  id : string;
  name : string;
  role : string;
  permissions : list string
}.

Inductive Authentication : Type :=
| Refused (v : Verdict)
| Authenticated (user : User).

(** [authenticateApiKey]: [headerKey] is [req.headers['x-api-key']],
    [queryKey] is [req.query.api_key] and [validApiKeysEnv] is
    [process.env.VALID_API_KEYS]. *)
Definition authenticateApiKey (validApiKeysEnv headerKey queryKey : option string)
    : Authentication :=
  let apiKey := if Js.truthy headerKey then headerKey else queryKey in
  if negb (Js.truthy apiKey) then
    Refused (Respond 401 "login" "API key required")
  else
    let validApiKeys :=
      if Js.truthy validApiKeysEnv then Js.split "," (default "" validApiKeysEnv)
      else ["default-api-key"] in
    if negb (existsb (Js.strictEq (default "" apiKey)) validApiKeys) then
      Refused (Respond 401 "login" "Invalid API key")
    else
      Authenticated (mkUser "api-user" "API User" "system" ["read"; "write"]).

(** [authorizeAccess(requiredPermissions)] on a request whose [req.user]
    is [user]. *)
Definition authorizeAccess (requiredPermissions : list string) (user : option User)
    : Verdict :=
  match user with
  | None => Respond 401 "login" "Authentication required"
  | Some user =>
      let userPermissions := permissions user in
      let hasPermission :=
        (Nat.eqb (length requiredPermissions) 0)
        || existsb (fun perm => existsb (Js.strictEq perm) userPermissions)
             requiredPermissions in
      if negb hasPermission then Respond 403 "forbidden" "Insufficient permissions"
      else Next
  end.

(** The two middlewares in a row, as the routes mount them. *)
Definition apiKeyAccess (validApiKeysEnv headerKey queryKey : option string)
    (requiredPermissions : list string) : Verdict :=
  match authenticateApiKey validApiKeysEnv headerKey queryKey with
  | Refused v => v
  | Authenticated user => authorizeAccess requiredPermissions (Some user)
  end.

End Auth.

(** ** Further sample data *)

Module Fixtures.

(** The edge N001 -> MD11.0 of the sample concept map, seen from either
    side. *)
Definition feverEdge : Mapping :=
  mkMapping Sample.mmsUrl "MD11.0" (Some "Fever, unspecified") "equivalent" None.

Definition feverPatternReverseEdge : ReverseMapping :=
  mkReverseMapping Sample.namasteUrl "N001" (Some "Fever (Jwara)") "wider".

(** The match that the sample store gives for the term "fever". *)
Definition feverResult : Autocomplete.Result :=
  Autocomplete.mkResult Sample.namasteUrl "NAMASTE" "N001" (Some "Fever (Jwara)")
    (Some "Raised body temperature") 70 "NAMASTE"
    (Some [Designation.mk (Some "hi") "Jwara" None])
    (Some [ feverEdge;
            mkMapping Sample.mmsUrl "TM26.0" (Some "Fever pattern (TM2)") "wider"
              (Some "pattern level") ]).

(** A body with a system and no code. *)
Definition translateWithoutCode : option (list Translate.BodyParameter) :=
  Some [Translate.mkParam "system" None (Some Sample.namasteUrl) None].

(** [?namasteCode=N900]: a code that is known and has no mapping. *)
Definition lookupUnmapped : DualCodeLookup.Query :=
  DualCodeLookup.mkQuery (Some "N900") None None None.

Definition namasteCodeSystem : CodeSystem.t :=
  CodeSystem.mk Sample.namasteUrl "NAMASTE"
    [Sample.fever; Sample.unmappedFinding; Sample.vatajaJwara].

(** A unique-constraint error of the database. *)
Definition duplicateKey : ErrorHandler.Err :=
  ErrorHandler.mkErr true "PrismaClientKnownRequestError" (Some "P2002") None
    "Unique constraint failed on the fields: (url)".

(** Another unique-constraint error, with another message. *)
Definition duplicateKeyOnName : ErrorHandler.Err :=
  ErrorHandler.mkErr true "PrismaClientKnownRequestError" (Some "P2002") None
    "Unique constraint failed on the fields: (name)".

(** A POST whose headers list several media types and a charset. *)
Definition postWithCharset : RequestLogger.Request :=
  RequestLogger.mkRequest "POST" (Some "text/html, application/json;q=0.9")
    (Some "application/fhir+json; charset=utf-8").

(** The sample concept map under its id. *)
Definition conceptMapTable : ConceptMapRoute.Table :=
  [("cmfczxkcw0000pau5h8g5h76g", Sample.namasteToIcd11)].

Definition feverMatch : ConceptMapRoute.Match :=
  ConceptMapRoute.mkMatch "equivalent" Sample.mmsUrl (Some "MD11.0")
    (Some "Fever, unspecified").

(** Three requests from one address within a second. *)
Definition burst : list (Z * bool) := [(10, false); (20, true); (30, false)].

End Fixtures.

(** * Properties *)

(** ** String primitives *)

Section StringFacts.

Import Js.

Lemma startsWith_refl (s : string) : startsWith s s = true.
Proof.
  induction s as [| c s IH]; simpl; [reflexivity |].
  rewrite Ascii.eqb_refl. exact IH.
Qed.

Lemma startsWith_empty (s : string) : startsWith s "" = true.
Proof. destruct s; reflexivity. Qed.

Lemma includes_startsWith (s t : string) :
  startsWith s t = true -> includes s t = true.
Proof.
  intros H. destruct s as [| c s].
  - change (includes "" t) with (startsWith "" t || false). rewrite H. reflexivity.
  - change (includes (String c s) t)
      with (startsWith (String c s) t || includes s t).
    rewrite H. reflexivity.
Qed.

Lemma includes_eqb (s t : string) : String.eqb s t = true -> includes s t = true.
Proof.
  intros H. apply String.eqb_eq in H. subst t.
  apply includes_startsWith, startsWith_refl.
Qed.

Lemma includes_empty (s : string) : includes s "" = true.
Proof. apply includes_startsWith, startsWith_empty. Qed.

Lemma startsWith_of_empty (t : string) : t <> "" -> startsWith "" t = false.
Proof. destruct t; [congruence | reflexivity]. Qed.

Lemma includes_of_empty (t : string) : t <> "" -> includes "" t = false.
Proof. destruct t; [congruence | reflexivity]. Qed.

Lemma toLowerCase_nonempty (t : string) : t <> "" -> toLowerCase t <> "".
Proof. destruct t; [congruence | discriminate]. Qed.

Lemma truthyStr_false (s : string) : truthyStr s = false -> s = "".
Proof.
  unfold truthyStr. intros H. apply negb_false_iff in H.
  apply String.eqb_eq in H. exact H.
Qed.

End StringFacts.

(** ** Relevance scorer *)

Section ScorerFacts.

Import Js ScoreSpec.

Lemma fold_left_designations (term : string) (ds : list Designation.t) (acc : Z) :
  fold_left (fun score d => score + designationScore term d) ds acc
  = acc + sumZ (map (designationScore term) ds).
Proof.
  revert acc. induction ds as [| d ds IH]; intros acc; simpl.
  - lia.
  - rewrite IH. lia.
Qed.

(** The accumulated score is the sum of the four rule groups. *)
Lemma score_decompose (c : Concept.t) (T : string) :
  calculateRelevanceScore c T
  = codePart c T + guardedDisplay c T + guardedDefinition c T
    + sumZ (map (designationPart T) (designationsOf c)).
Proof.
  unfold calculateRelevanceScore, guardedDisplay, guardedDefinition,
    codePart, displayPart, definitionPart, designationsOf,
    equalsCI, startsWithCI, containsCI, strictEq.
  destruct c as [code display definition designations]; simpl.
  set (t := toLowerCase T).
  assert (Hd : forall ds acc,
             fold_left (fun score d => score + designationScore t d) ds acc
             = acc + sumZ (map (designationPart T) ds)).
  { intros ds acc. apply fold_left_designations. }
  destruct designations as [ds |]; simpl; [rewrite Hd |];
    destruct display as [d |]; destruct definition as [f |]; simpl;
    repeat match goal with
           | |- context [if ?b then _ else _] => destruct b
           end; lia.
Qed.

Lemma codePart_nonneg c T : 0 <= codePart c T.
Proof. unfold codePart. repeat destruct (_ : bool); lia. Qed.

Lemma displayPart_nonneg c T : 0 <= displayPart c T.
Proof. unfold displayPart. destruct (Concept.display c); repeat destruct (_ : bool); lia. Qed.

Lemma definitionPart_nonneg c T : 0 <= definitionPart c T.
Proof. unfold definitionPart. destruct (Concept.definition c); repeat destruct (_ : bool); lia. Qed.

Lemma designationPart_nonneg T d : 0 <= designationPart T d.
Proof. unfold designationPart. repeat destruct (_ : bool); lia. Qed.

Lemma sum_designations_nonneg T ds : 0 <= sumZ (map (designationPart T) ds).
Proof.
  induction ds as [| d ds IH]; simpl; [lia |].
  pose proof (designationPart_nonneg T d). lia.
Qed.

Lemma sum_designations_zero T ds :
  sumZ (map (designationPart T) ds) = 0
  <-> forall d, In d ds -> containsCI (Designation.value d) T = false.
Proof.
  induction ds as [| d ds IH]; simpl.
  - split; [intros _ d [] | reflexivity].
  - pose proof (designationPart_nonneg T d) as Hd.
    pose proof (sum_designations_nonneg T ds) as Hs.
    split.
    + intros H x [<- | Hx].
      * assert (H0 : designationPart T d = 0) by lia.
        unfold designationPart in H0.
        destruct (equalsCI _ _); [lia |].
        destruct (containsCI _ _); [lia | reflexivity].
      * apply IH; [lia | exact Hx].
    + intros H.
      assert (Hz : designationPart T d = 0).
      { unfold designationPart.
        pose proof (H d (or_introl eq_refl)) as Hc.
        destruct (equalsCI (Designation.value d) T) eqn:He.
        - unfold equalsCI in He. apply includes_eqb in He.
          unfold containsCI in Hc. congruence.
        - rewrite Hc. reflexivity. }
      rewrite Hz. apply proj2 in IH. rewrite IH; [lia |].
      intros x Hx. apply H. right. exact Hx.
Qed.

Lemma codePart_zero c T :
  codePart c T = 0 <-> containsCI (Concept.code c) T = false.
Proof.
  unfold codePart. destruct (equalsCI (Concept.code c) T) eqn:He.
  - unfold equalsCI in He. apply includes_eqb in He.
    unfold containsCI. rewrite He. split; [lia | discriminate].
  - destruct (containsCI (Concept.code c) T); split; (lia || congruence).
Qed.

Lemma displayRule_zero d T :
  (if equalsCI d T then 90
   else if startsWithCI d T then 70 else if containsCI d T then 40 else 0) = 0
  <-> containsCI d T = false.
Proof.
  destruct (equalsCI d T) eqn:He.
  - unfold equalsCI in He. apply includes_eqb in He.
    unfold containsCI. rewrite He. split; [lia | discriminate].
  - destruct (startsWithCI d T) eqn:Hs.
    + unfold startsWithCI in Hs. apply includes_startsWith in Hs.
      unfold containsCI. rewrite Hs. split; [lia | discriminate].
    + destruct (containsCI d T); split; (lia || congruence).
Qed.

(** For a non-empty term the guards change nothing: an empty display or
    definition earns no point under either reading. *)
Lemma guardedDisplay_nonempty (c : Concept.t) (T : string) :
  T <> "" -> guardedDisplay c T = displayPart c T.
Proof.
  intros HT.
  assert (Ht : toLowerCase T <> "") by (apply toLowerCase_nonempty; exact HT).
  unfold guardedDisplay, displayPart.
  destruct (Concept.display c) as [d |]; simpl; [| reflexivity].
  destruct (truthyStr d) eqn:Hd; [reflexivity |].
  apply truthyStr_false in Hd. subst d.
  unfold equalsCI, startsWithCI, containsCI. simpl toLowerCase.
  rewrite (startsWith_of_empty _ Ht).
  replace (includes "" (toLowerCase T)) with false
    by (symmetry; apply includes_of_empty; exact Ht).
  destruct (String.eqb "" (toLowerCase T)) eqn:He; [| reflexivity].
  apply String.eqb_eq in He. congruence.
Qed.

Lemma guardedDefinition_nonempty (c : Concept.t) (T : string) :
  T <> "" -> guardedDefinition c T = definitionPart c T.
Proof.
  intros HT.
  assert (Ht : toLowerCase T <> "") by (apply toLowerCase_nonempty; exact HT).
  unfold guardedDefinition, definitionPart.
  destruct (Concept.definition c) as [d |]; simpl; [| reflexivity].
  destruct (truthyStr d) eqn:Hd; [reflexivity |].
  apply truthyStr_false in Hd. subst d.
  unfold containsCI. simpl toLowerCase.
  rewrite (includes_of_empty _ Ht). reflexivity.
Qed.

(** C5 (amended). For every concept and every non-empty search term, the
    score the code accumulates is the sum the rules describe: 100 for a code equal
    to the term, else 50 for a code containing it; 90, 70 or 40 for a
    display equal to, starting with or containing it; 20 for a
    definition containing it; and 60 or 30 for each designation equal to
    or containing it, every comparison being case-insensitive. *)
Theorem score_is_rule_sum (c : Concept.t) (T : string) :
  T <> "" ->
  calculateRelevanceScore c T = ScoreSpec.score c T.
Proof.
  intros HT. rewrite score_decompose. unfold score.
  rewrite (guardedDisplay_nonempty c T HT), (guardedDefinition_nonempty c T HT).
  reflexivity.
Qed.

(** C6. The score is never negative, and it is zero exactly when none
    of code, display, definition and designation values contains the
    term as a case-insensitive substring. *)
Theorem score_nonneg_zero_iff (c : Concept.t) (T : string) :
  0 <= calculateRelevanceScore c T
  /\ (calculateRelevanceScore c T = 0 <-> noFieldContains c T).
Proof.
  rewrite score_decompose.
  pose proof (codePart_nonneg c T) as H1.
  pose proof (displayPart_nonneg c T) as H2.
  pose proof (definitionPart_nonneg c T) as H3.
  pose proof (sum_designations_nonneg T (designationsOf c)) as H4.
  assert (G2 : 0 <= guardedDisplay c T)
    by (unfold guardedDisplay; destruct (truthy _); lia).
  assert (G3 : 0 <= guardedDefinition c T)
    by (unfold guardedDefinition; destruct (truthy _); lia).
  split; [lia |].
  unfold noFieldContains. split.
  - intros H.
    assert (Hc : codePart c T = 0) by lia.
    assert (Hd : guardedDisplay c T = 0) by lia.
    assert (Hf : guardedDefinition c T = 0) by lia.
    assert (Hs : sumZ (map (designationPart T) (designationsOf c)) = 0) by lia.
    apply codePart_zero in Hc.
    assert (HT : toLowerCase T <> "").
    { intros E. unfold containsCI in Hc. rewrite E, includes_empty in Hc. discriminate. }
    split; [exact Hc |]. split; [| split].
    + intros d Ed. unfold guardedDisplay, displayPart in Hd. rewrite Ed in Hd.
      simpl in Hd. destruct (truthyStr d) eqn:Htr.
      * apply displayRule_zero. exact Hd.
      * apply truthyStr_false in Htr. subst d. unfold containsCI. simpl toLowerCase.
        apply includes_of_empty. exact HT.
    + intros d Ed. unfold guardedDefinition, definitionPart in Hf. rewrite Ed in Hf.
      simpl in Hf. destruct (truthyStr d) eqn:Htr.
      * destruct (containsCI d T); [lia | reflexivity].
      * apply truthyStr_false in Htr. subst d. unfold containsCI. simpl toLowerCase.
        apply includes_of_empty. exact HT.
    + apply sum_designations_zero. exact Hs.
  - intros (Hc & Hd & Hf & Hs).
    apply codePart_zero in Hc. apply sum_designations_zero in Hs.
    assert (Gd : guardedDisplay c T = 0).
    { unfold guardedDisplay, displayPart.
      destruct (Concept.display c) as [d |] eqn:Ed; simpl; [| reflexivity].
      destruct (truthyStr d); [| reflexivity].
      apply displayRule_zero. apply Hd. reflexivity. }
    assert (Gf : guardedDefinition c T = 0).
    { unfold guardedDefinition, definitionPart.
      destruct (Concept.definition c) as [d |] eqn:Ed; simpl; [| reflexivity].
      destruct (truthyStr d); [| reflexivity].
      rewrite (Hf d eq_refl). reflexivity. }
    lia.
Qed.

End ScorerFacts.

(** ** Translation resolver *)

Section ResolverFacts.

Import ResolverSpec.

Lemma flat_map_map {A B C : Type} (f : B -> list C) (g : A -> B) (l : list A) :
  flat_map f (map g l) = flat_map (fun x => f (g x)) l.
Proof.
  induction l as [| a l IH]; simpl; [reflexivity |].
  rewrite IH. reflexivity.
Qed.

Lemma head_filter_find {A : Type} (p : A -> bool) (l : list A) :
  head (List.filter p l) = find p l.
Proof.
  induction l as [| a l IH]; simpl; [reflexivity |].
  destruct (p a); simpl; [reflexivity | exact IH].
Qed.

Lemma selectsb_query (system : string) (targetSystem : option string) (cm : ConceptMap.t) :
  (String.eqb (ConceptMap.sourceUri cm) system
   && (if Js.truthy targetSystem
       then String.eqb (ConceptMap.targetUri cm) (default "" targetSystem)
       else true))
  = selectsb system targetSystem cm.
Proof.
  unfold selectsb, Js.truthy, Js.truthyStr.
  destruct targetSystem as [ts |]; simpl; [| reflexivity].
  destruct (String.eqb ts ""); reflexivity.
Qed.

Lemma selectsb_selects (system : string) (targetSystem : option string) (cm : ConceptMap.t) :
  selects system targetSystem cm -> selectsb system targetSystem cm = true.
Proof.
  intros [Hs Ht]. unfold selectsb.
  apply andb_true_iff. split.
  - apply String.eqb_eq. exact Hs.
  - destruct targetSystem as [ts |]; [| reflexivity].
    destruct (String.eqb ts "") eqn:E; [reflexivity |]. simpl.
    apply String.eqb_eq. apply Ht; [reflexivity |].
    intros ->. discriminate.
Qed.

Lemma findMappings_forwardEdges (st : Store) (code system : string)
    (targetSystem : option string) :
  findMappingsForConcept st code system targetSystem
  = forwardEdges st code system targetSystem.
Proof.
  unfold findMappingsForConcept, forwardEdges, Prisma.conceptMap_findMany_source.
  rewrite flat_map_map.
  rewrite (List.filter_ext _ _ (selectsb_query system targetSystem)).
  apply flat_map_ext. intros cm. simpl.
  rewrite flat_map_map. reflexivity.
Qed.

(** C8. The forward lookup returns exactly the edges of every target of
    every element with the code, in every group of every concept map
    whose [sourceUri] is the source system (and whose [targetUri] is the
    target system when one is given); in particular each such target has
    its edge in the result, whatever precedes it. *)
Theorem forward_lookup_collects_all (st : Store) (code system : string)
    (targetSystem : option string) :
  findMappingsForConcept st code system targetSystem
  = forwardEdges st code system targetSystem
  /\ forall cm g e t,
       In cm (conceptMaps st) ->
       selects system targetSystem cm ->
       In g (ConceptMap.groups cm) ->
       In e (MappingGroup.elements g) ->
       MappingElement.code e = code ->
       In t (MappingElement.targets e) ->
       In (forwardEdge cm t) (findMappingsForConcept st code system targetSystem).
Proof.
  split; [apply findMappings_forwardEdges |].
  intros cm g e t Hcm Hsel Hg He Hcode Ht.
  rewrite findMappings_forwardEdges. unfold forwardEdges.
  apply in_flat_map. exists cm. split.
  { apply filter_In. split; [exact Hcm | apply selectsb_selects; exact Hsel]. }
  apply in_flat_map. exists g. split; [exact Hg |].
  apply in_flat_map. exists e. split.
  { apply filter_In. split; [exact He | apply String.eqb_eq; exact Hcode]. }
  apply in_map. exact Ht.
Qed.

(** C9. The reverse lookup yields, for each element of each concept map
    whose [targetUri] is the target system, one edge when the element owns
    a target with the code and none otherwise; the edge carries the concept
    map's [sourceUri], the element's code and display, and the equivalence
    of the element's first matching target. *)
Theorem reverse_lookup_first_target (st : Store) (code system : string) :
  findReverseMappingsForConcept st code system = reverseEdges st code system.
Proof.
  unfold findReverseMappingsForConcept, reverseEdges, Prisma.conceptMap_findMany_target.
  rewrite flat_map_map. apply flat_map_ext. intros cm. simpl.
  rewrite flat_map_map. apply flat_map_ext. intros g. simpl.
  rewrite flat_map_map. apply flat_map_ext. intros e. simpl.
  unfold firstMatchingTarget. rewrite <- head_filter_find.
  destruct (List.filter _ (MappingElement.targets e)); reflexivity.
Qed.

End ResolverFacts.

(** ** Sorting by a numeric key, largest first *)

Section SortFacts.

Context {A : Type} (key : A -> Z).

Import Js.









Lemma slice0_length (n : Z) (l : list A) :
  0 <= n -> Z.of_nat (length (slice0 n l)) <= n.
Proof.
  intros Hn. unfold slice0.
  assert (E : (n <? 0) = false) by (apply Z.ltb_ge; lia). rewrite E.
  rewrite length_firstn. lia.
Qed.

End SortFacts.

(** ** Autocomplete *)

Section AutocompleteFacts.

Import Autocomplete.

Lemma handler_accepted (st : Store) (q : Query) (s : string) :
  search q = Some s ->
  (2 <= String.length s)%nat ->
  handler st q = Ok (response q s (limitedResults st q s)).
Proof.
  intros Hs Hlen. unfold handler. rewrite Hs.
  assert (E1 : Js.truthyStr s = true) by (destruct s; [simpl in Hlen; lia | reflexivity]).
  assert (E2 : (Z.of_nat (String.length s) <? 2) = false) by (apply Z.ltb_ge; lia).
  rewrite E1, E2. reflexivity.
Qed.

Lemma paramsNamed_matchParts (k : nat) (rs : list Result) :
  paramsNamed "match" (imap (fun i => matchPart (k + i)) rs)
  = imap (fun i => matchPart (k + i)) rs.
Proof.
  revert k. induction rs as [| r rs IH]; intros k; [reflexivity |].
  cbn [imap]. unfold paramsNamed in *. cbn [List.filter paramName matchPart].
  change (String.eqb "match" "match") with true. cbv iota.
  f_equal.
  rewrite (imap_ext _ (fun i => matchPart (S k + i))).
  - apply IH.
  - intros i x _. cbn. f_equal. lia.
Qed.

(** The [match] entries of a response are the limited results, in order. *)
Lemma response_matches (q : Query) (s : string) (rs : list Result) :
  paramsNamed "match" (response q s rs) = imap matchPart rs.
Proof.
  unfold response. unfold paramsNamed. rewrite List.filter_app.
  change (List.filter _ [_; _; _; _]) with (@nil FhirParameter).
  exact (paramsNamed_matchParts 0 rs).
Qed.

(** C3 (as the code behaves). With [limit=60] and two code systems that
    each hold 26 matching concepts the handler answers with 52 matches,
    more than min(60, 50): the clamp is applied to the per-system [take]
    but not to the final [slice]. *)
Theorem autocomplete_limit_not_clamped :
  exists ps,
    handler Sample.crowdedStore Sample.wideQuery = Ok ps
    /\ length (paramsNamed "match" ps) = 52%nat
    /\ In (PInteger "matches" 52) ps
    /\ Z.min 60 50 < 52.
Proof.
  eexists. split; [vm_compute; reflexivity |].
  split; [vm_compute; reflexivity |].
  split; [right; left; reflexivity | vm_compute; reflexivity].
Qed.

(** A search term of two spaces has no character left after trimming,
    yet the handler accepts it and answers. *)
Lemma autocomplete_accepts_blank_search :
  (String.length (Js.trim "  ") < 2)%nat
  /\ handler Sample.store Sample.blankQuery
     = Ok [ PBoolean "result" false;
            PInteger "matches" 0;
            PString "searchTerm" "  ";
            PString "systemsSearched" "namaste, icd11-tm2, unani" ].
Proof. split; [simpl; lia | vm_compute; reflexivity]. Qed.

(** C4 (amended). The handler fails with a validation error exactly when
    the search term is absent or has fewer than 2 characters as given; the
    term is not trimmed. *)
Theorem autocomplete_rejects_short_search (st : Store) (q : Query) :
  (exists message, handler st q = Throw (ValidationError message))
  <-> match search q with
      | None => True
      | Some s => (String.length s < 2)%nat
      end.
Proof.
  unfold handler. destruct (search q) as [s |].
  - destruct (Z.of_nat (String.length s) <? 2) eqn:E.
    + rewrite orb_true_r. apply Z.ltb_lt in E.
      split; [intros _; lia | intros _; eexists; reflexivity].
    + apply Z.ltb_ge in E.
      assert (T : Js.truthyStr s = true) by (destruct s; [simpl in E; lia | reflexivity]).
      rewrite T. simpl. split; [intros [m Hm]; discriminate | lia].
  - split; [trivial | intros _; eexists; reflexivity].
Qed.


(** The part of the bound that holds: never more matches than the
    requested limit. *)
Lemma autocomplete_at_most_limit (st : Store) (q : Query) (s : string) :
  0 <= parsedLimit q ->
  Z.of_nat (length (limitedResults st q s)) <= parsedLimit q.
Proof. intros H. unfold limitedResults. apply slice0_length. exact H. Qed.

(** Every collected result is scored with the search term by the rules of
    the scorer; the handler only searches terms of two or more characters. *)
Lemma collect_scores_by_rules (st : Store) (q : Query) (s : string) (r : Result) :
  (2 <= String.length s)%nat ->
  In r (collect st q s) ->
  exists concept,
    r_code r = Concept.code concept
    /\ r_score r = ScoreSpec.score concept s.
Proof.
  intros Hlen Hr. unfold collect in Hr.
  apply in_flat_map in Hr. destruct Hr as (systemKey & _ & Hr).
  unfold searchSystem in Hr.
  destruct (systemUrls systemKey) as [systemUrl |]; [| destruct Hr].
  destruct (Js.truthy (system q) && _); [destruct Hr |].
  destruct (Prisma.codeSystem_findUnique _ _ _ _ _) as [codeSystem |]; [| destruct Hr].
  apply in_map_iff in Hr. destruct Hr as (concept & <- & _).
  exists concept. split; [reflexivity |].
  assert (Hs : s <> "") by (destruct s; [simpl in Hlen; lia | discriminate]).
  cbn [r_score toResult]. rewrite score_decompose. unfold ScoreSpec.score.
  rewrite (guardedDisplay_nonempty concept s Hs), (guardedDefinition_nonempty concept s Hs).
  reflexivity.
Qed.

End AutocompleteFacts.

(** ** Translate *)

Section TranslateFacts.

Import Js Translate.

Lemma collect_lookup_notReverse (k : string) (ps : list BodyParameter) :
  k <> "reverse" ->
  forall acc acc' : gmap string value,
    acc !! k = acc' !! k ->
    fold_left collectParam ps acc !! k
    = fold_left collectParam (List.filter notReverse ps) acc' !! k.
Proof.
  intros Hk. induction ps as [| p ps IH]; intros acc acc' Hacc; simpl.
  - exact Hacc.
  - unfold notReverse at 1. destruct (String.eqb (name p) "reverse") eqn:E; simpl.
    + apply String.eqb_eq in E. apply IH.
      unfold collectParam. rewrite lookup_insert_ne by congruence. exact Hacc.
    + apply IH. unfold collectParam.
      destruct (decide (name p = k)) as [-> | Hne].
      * rewrite !lookup_insert_eq. reflexivity.
      * rewrite !lookup_insert_ne by exact Hne. exact Hacc.
Qed.

Lemma prop_notReverse (k : string) (ps : list BodyParameter) :
  k <> "reverse" ->
  prop (parseParameters (Some ps)) k
  = prop (parseParameters (Some (List.filter notReverse ps))) k.
Proof.
  intros Hk. unfold prop, parseParameters.
  rewrite (collect_lookup_notReverse k ps Hk ∅ ∅ eq_refl). reflexivity.
Qed.

(** A request for N900, which NAMASTE knows and no concept map mentions,
    is answered with [result = false]. *)
Lemma translate_unmapped_reports_false :
  Prisma.codeSystemConcept_findFirst Sample.store "N900" Sample.namasteUrl
  = Some (CodeSystem.mk Sample.namasteUrl "NAMASTE"
            [Sample.fever; Sample.unmappedFinding; Sample.vatajaJwara],
          Sample.unmappedFinding)
  /\ findMappingsForConcept Sample.store "N900" Sample.namasteUrl None = []
  /\ exists message,
       handler Sample.store Sample.translateUnmapped
       = Ok [PBoolean "result" false; PString "message" message].
Proof.
  split; [reflexivity |]. split; [reflexivity |].
  eexists. vm_compute. reflexivity.
Qed.

(** C1 (amended). For a request with a code and a system, the handler
    answers; [result] is true exactly when the code is known in the source
    system and the forward lookup finds a mapping.  An unknown code is
    answered with [result = false] and the message that the code was not
    found; a known code without mapping is answered with [result = false]
    and the message that no mappings were found. *)
Theorem translate_result_flag (st : Store) (parameter : option (list BodyParameter))
    (code system : string) :
  prop (parseParameters parameter) "code" = VString code ->
  prop (parseParameters parameter) "system" = VString system ->
  code <> "" ->
  system <> "" ->
  prop (parseParameters parameter) "target" <> VBoolean true ->
  let target := prop (parseParameters parameter) "target" in
  let known := Prisma.codeSystemConcept_findFirst st code system in
  let mappings := findMappingsForConcept st code system (targetSystemOf target) in
  exists ps,
    handler st parameter = Ok ps
    /\ (resultFlag ps = Some true <-> known <> None /\ mappings <> [])
    /\ (known = None ->
        ps = [PBoolean "result" false; PString "message" (notFoundMessage code system)])
    /\ (known <> None -> mappings = [] ->
        ps = [PBoolean "result" false;
              PString "message" (noMappingsMessage code system target)]).
Proof.
  intros Hc Hs Hcode Hsystem Ht. cbv zeta.
  assert (Tc : truthyStr code = true).
  { unfold truthyStr. destruct (String.eqb code "") eqn:E; [| reflexivity].
    apply String.eqb_eq in E. contradiction. }
  assert (Ts : truthyStr system = true).
  { unfold truthyStr. destruct (String.eqb system "") eqn:E; [| reflexivity].
    apply String.eqb_eq in E. contradiction. }
  unfold handler. cbv zeta. rewrite Hc, Hs. cbn [truthyVal]. rewrite Tc, Ts.
  cbn [negb orb].
  destruct (Prisma.codeSystemConcept_findFirst st code system)
    as [[codeSystem sourceConcept] |].
  - destruct (prop (parseParameters parameter) "target") as [| t | [|]];
      try (exfalso; apply Ht; reflexivity);
      destruct (findMappingsForConcept st code system _) as [| m ms];
      eexists; (split; [reflexivity |]); cbn [resultFlag app];
      (split; [split; [intros H; try discriminate H; split; congruence
                      | intros [_ H]; congruence]
              | split; [intros H; discriminate H | intros _ H; congruence]]).
  - eexists. split; [reflexivity |]. cbn [resultFlag].
    split; [split; [intros H; discriminate H | intros [H _]; congruence] |].
    split; [reflexivity | intros H; congruence].
Qed.

(** C10. Two request bodies that differ only in their [reverse] entries
    are answered alike: the value of [reverse] is read and never used. *)
Theorem translate_ignores_reverse (st : Store) (ps1 ps2 : list BodyParameter) :
  List.filter notReverse ps1 = List.filter notReverse ps2 ->
  handler st (Some ps1) = handler st (Some ps2).
Proof.
  intros H.
  assert (E : forall k, k <> "reverse" ->
                prop (parseParameters (Some ps1)) k = prop (parseParameters (Some ps2)) k).
  { intros k Hk. rewrite (prop_notReverse k ps1 Hk), (prop_notReverse k ps2 Hk), H.
    reflexivity. }
  unfold handler. cbv zeta.
  rewrite (E "code") by discriminate.
  rewrite (E "system") by discriminate.
  rewrite (E "target") by discriminate.
  reflexivity.
Qed.

End TranslateFacts.

(** ** Dual-code lookup *)

Section DualCodeLookupFacts.

Import Js DualCodeLookup.

Lemma lookupNamaste_unknown (st : Store) (q : Query) (c : string) :
  namasteCode q = Some c ->
  Prisma.codeSystemConcept_findFirst st c namasteUrl = None ->
  lookupNamaste st q = [].
Proof.
  intros Hq Hnone. unfold lookupNamaste. rewrite Hq.
  destruct (truthy (Some c)); [| reflexivity].
  simpl. rewrite Hnone. reflexivity.
Qed.

Lemma lookupIcd11In_unknown (st : Store) (q : Query) (c : string) (systems : list string) :
  (forall u, In u systems -> Prisma.codeSystemConcept_findFirst st c u = None) ->
  lookupIcd11In st q c systems = [].
Proof.
  induction systems as [| u systems IH]; intros H; simpl; [reflexivity |].
  rewrite (H u (or_introl eq_refl)). apply IH.
  intros v Hv. apply H. right. exact Hv.
Qed.

Lemma lookupIcd11_unknown (st : Store) (q : Query) (c : string) :
  icd11Code q = Some c ->
  (forall u, In u icd11Systems -> Prisma.codeSystemConcept_findFirst st c u = None) ->
  lookupIcd11 st q = [].
Proof.
  intros Hq Hnone. unfold lookupIcd11. rewrite Hq.
  destruct (truthy (Some c)); [| reflexivity].
  simpl default. apply lookupIcd11In_unknown. exact Hnone.
Qed.

(** With an unknown NAMASTE code and a known ICD-11 code the response
    carries nothing about the NAMASTE code: it is the response to the
    request that leaves the NAMASTE code out. *)
Lemma dual_lookup_unknown_code_leaves_no_status :
  Prisma.codeSystemConcept_findFirst Sample.store "ZZZZ" namasteUrl = None
  /\ exists ps,
       handler Sample.store Sample.lookupUnknownNamaste = Ok ps
       /\ map paramName ps = ["result"; "icd11"; "mappedNamasteCodes"]
       /\ paramsNamed "namaste" ps = []
       /\ handler Sample.store Sample.lookupIcd11Only = Ok ps.
Proof.
  split; [reflexivity |].
  eexists. split; [vm_compute; reflexivity |].
  repeat split.
Qed.

(** C2 (amended). The lookup fails with a validation error when both
    codes are absent and answers otherwise.  A supplied code that is
    unknown adds nothing to the response, which is then the response to
    the request without that code; the other code is reported as if it
    had been supplied alone. *)
Theorem dual_lookup_partial_results (st : Store) (q : Query) :
  (truthy (namasteCode q) = false -> truthy (icd11Code q) = false ->
   handler st q
   = Throw (ValidationError "Either namasteCode or icd11Code parameter is required"))
  /\ (truthy (namasteCode q) = true \/ truthy (icd11Code q) = true ->
      exists ps, handler st q = Ok ps)
  /\ (forall c,
        namasteCode q = Some c ->
        Prisma.codeSystemConcept_findFirst st c namasteUrl = None ->
        truthy (icd11Code q) = true ->
        handler st q
        = handler st (mkQuery None (icd11Code q) (includeDetails q) (includeHierarchy q)))
  /\ (forall c,
        icd11Code q = Some c ->
        (forall u, In u icd11Systems -> Prisma.codeSystemConcept_findFirst st c u = None) ->
        truthy (namasteCode q) = true ->
        handler st q
        = handler st (mkQuery (namasteCode q) None (includeDetails q) (includeHierarchy q))).
Proof.
  split; [| split; [| split]].
  - intros Hn Hi. unfold handler. rewrite Hn, Hi. reflexivity.
  - intros H. unfold handler.
    destruct (negb (truthy (namasteCode q)) && negb (truthy (icd11Code q))) eqn:E.
    + apply andb_true_iff in E. destruct E as [En Ei].
      apply negb_true_iff in En, Ei. destruct H; congruence.
    + eexists. reflexivity.
  - intros c Hc Hnone Hi. unfold handler. cbn [namasteCode icd11Code].
    rewrite Hi. rewrite !andb_false_r.
    rewrite (lookupNamaste_unknown st q c Hc Hnone).
    unfold lookupNamaste at 1. cbn [namasteCode truthy]. reflexivity.
  - intros c Hc Hnone Hn. unfold handler. cbn [namasteCode icd11Code].
    rewrite Hn. cbn [negb andb].
    rewrite (lookupIcd11_unknown st q c Hc Hnone).
    unfold lookupIcd11 at 2. cbn [icd11Code truthy].
    unfold lookupNamaste. cbn [namasteCode includeDetails details].
    reflexivity.
Qed.

End DualCodeLookupFacts.

(** ** The properties at the sample store *)

Section Scenarios.

Example score_fever :
  calculateRelevanceScore (StoredConcept.load true Sample.fever) "fever" = 70.
Proof. reflexivity. Qed.

Example score_exact_code :
  calculateRelevanceScore (StoredConcept.load true Sample.vatajaJwara) "sr11" = 100.
Proof. reflexivity. Qed.

(** The empty term is no search term (the handler rejects it); for it the
    guard on [concept.display] skips an empty display that the rules
    would count as equal to the term. *)
Example score_empty_term :
  calculateRelevanceScore (Concept.mk "x" (Some "") None None) "" = 50
  /\ ScoreSpec.score (Concept.mk "x" (Some "") None None) "" = 50 + 90.
Proof. split; reflexivity. Qed.

Example forward_fever :
  map targetCode (findMappingsForConcept Sample.store "N001" Sample.namasteUrl None)
  = ["MD11.0"; "TM26.0"].
Proof. reflexivity. Qed.

(** SR11 owns two targets with the code TM26.0; the reverse edge carries
    the equivalence of the first. *)
Example reverse_fever_pattern :
  map (fun m => (sourceCode m, rev_equivalence m))
    (findReverseMappingsForConcept Sample.store "TM26.0" Sample.mmsUrl)
  = [("N001", "wider"); ("SR11", "equivalent")].
Proof. reflexivity. Qed.

Example autocomplete_fever :
  map (fun r => (Autocomplete.r_code r, Autocomplete.r_score r,
                 option_map (map targetCode) (Autocomplete.r_mappings r)))
    (Autocomplete.limitedResults Sample.store Sample.feverQuery "fever")
  = [("N001", 70, Some ["MD11.0"; "TM26.0"])].
Proof. vm_compute. reflexivity. Qed.

Example translate_unknown_code :
  Translate.handler Sample.store (Translate.body "ZZZZ" Sample.namasteUrl None None)
  = Ok [ PBoolean "result" false;
         PString "message"
           "Code 'ZZZZ' not found in system 'https://ayush.gov.in/fhir/CodeSystem/namaste'" ].
Proof. vm_compute. reflexivity. Qed.

Lemma score_is_rule_sum_witness :
  "fever" <> ""
  /\ calculateRelevanceScore (StoredConcept.load true Sample.fever) "fever"
     = ScoreSpec.score (StoredConcept.load true Sample.fever) "fever".
Proof.
  split; [discriminate |].
  apply (score_is_rule_sum (StoredConcept.load true Sample.fever) "fever").
  discriminate.
Defined.

Lemma translate_result_flag_witness :
  exists ps,
    Translate.handler Sample.store Sample.translateUnmapped = Ok ps
    /\ (resultFlag ps = Some true <->
        Prisma.codeSystemConcept_findFirst Sample.store "N900" Sample.namasteUrl <> None
        /\ findMappingsForConcept Sample.store "N900" Sample.namasteUrl None <> [])
    /\ (Prisma.codeSystemConcept_findFirst Sample.store "N900" Sample.namasteUrl = None ->
        ps = [PBoolean "result" false;
              PString "message" (Translate.notFoundMessage "N900" Sample.namasteUrl)])
    /\ (Prisma.codeSystemConcept_findFirst Sample.store "N900" Sample.namasteUrl <> None ->
        findMappingsForConcept Sample.store "N900" Sample.namasteUrl None = [] ->
        ps = [PBoolean "result" false;
              PString "message"
                (Translate.noMappingsMessage "N900" Sample.namasteUrl Js.VUndefined)]).
Proof.
  apply (translate_result_flag Sample.store Sample.translateUnmapped
           "N900" Sample.namasteUrl).
  - vm_compute. reflexivity.
  - vm_compute. reflexivity.
  - discriminate.
  - discriminate.
  - vm_compute. discriminate.
Defined.

Lemma translate_ignores_reverse_witness :
  List.filter Translate.notReverse Sample.translateFeverReverse
  = List.filter Translate.notReverse Sample.translateFever
  /\ Translate.handler Sample.store (Some Sample.translateFeverReverse)
     = Translate.handler Sample.store (Some Sample.translateFever).
Proof.
  split; [reflexivity |].
  apply (translate_ignores_reverse Sample.store
           Sample.translateFeverReverse Sample.translateFever).
  reflexivity.
Defined.

End Scenarios.

(** * Further properties of the routes *)

(** ** Literal search terms and the pattern matching of the database *)

Section LikeFacts.

Import Js Like.

Lemma lower_ascii_patternChar (c : ascii) :
  isPatternChar (lower_ascii c) = isPatternChar c.
Proof.
  destruct c as [b0 b1 b2 b3 b4 b5 b6 b7].
  destruct b0, b1, b2, b3, b4, b5, b6, b7; reflexivity.
Qed.

Lemma literal_toLowerCase (s : string) : literal (toLowerCase s) = literal s.
Proof.
  induction s as [| c s IH]; simpl; [reflexivity |].
  rewrite lower_ascii_patternChar, IH. reflexivity.
Qed.

Lemma toLowerCase_append (a b : string) :
  toLowerCase (a +:+ b) = toLowerCase a +:+ toLowerCase b.
Proof.
  induction a as [| c a IH]; [reflexivity |].
  change (String c a +:+ b) with (String c (a +:+ b)).
  cbn [toLowerCase]. rewrite IH. reflexivity.
Qed.

Lemma matches_percent (q text : string) :
  matches (String "%" q) text
  = matches q text
    || match text with
       | EmptyString => false
       | String _ text' => matches (String "%" q) text'
       end.
Proof. destruct text; reflexivity. Qed.

Lemma matches_literal_cons (c : ascii) (p text : string) :
  isPatternChar c = false ->
  matches (String c p) text
  = match text with
    | EmptyString => false
    | String y text' => Ascii.eqb c y && matches p text'
    end.
Proof.
  unfold isPatternChar. intros H.
  apply orb_false_iff in H. destruct H as [H H92].
  apply orb_false_iff in H. destruct H as [H37 H95].
  cbn [matches]. rewrite H37, H95, H92. reflexivity.
Qed.

Lemma matches_percent_only (text : string) : matches "%" text = true.
Proof.
  induction text as [| c text IH]; [reflexivity |].
  rewrite matches_percent. rewrite IH. apply orb_true_r.
Qed.

Lemma matches_prefix (s text : string) :
  literal s = true ->
  matches (s +:+ "%") text = startsWith text s.
Proof.
  revert text. induction s as [| c s IH]; intros text H.
  - change ("" +:+ "%") with "%". rewrite matches_percent_only.
    destruct text; reflexivity.
  - cbn [literal] in H. apply andb_true_iff in H. destruct H as [Hc Hs].
    apply negb_true_iff in Hc.
    change (String c s +:+ "%") with (String c (s +:+ "%")).
    rewrite (matches_literal_cons c _ text Hc).
    destruct text as [| y text]; [reflexivity |].
    cbn [startsWith]. rewrite (IH text Hs). reflexivity.
Qed.

Lemma matches_infix (s text : string) :
  literal s = true ->
  matches ("%" +:+ s +:+ "%") text = includes text s.
Proof.
  intros H. change ("%" +:+ s +:+ "%") with (String "%" (s +:+ "%")).
  induction text as [| c text IH].
  - rewrite matches_percent, (matches_prefix s "" H).
    destruct s; reflexivity.
  - rewrite matches_percent, (matches_prefix s _ H), IH. reflexivity.
Qed.

(** For a literal search term the test of the database is the search for
    the term as a text, which is the filter of the stored concepts. *)
Lemma ilikeContains_literal (field search : string) :
  literal search = true ->
  ilikeContains field search = Prisma.containsInsensitive field search.
Proof.
  intros H. unfold ilikeContains, Prisma.containsInsensitive.
  rewrite !toLowerCase_append.
  change (toLowerCase "%") with "%".
  apply matches_infix. rewrite literal_toLowerCase. exact H.
Qed.

(** A term with a wildcard is matched as a pattern: two underscores
    select every text of two or more characters. *)
Example ilikeContains_underscores :
  ilikeContains "Fever (Jwara)" "__" = true
  /\ Prisma.containsInsensitive "Fever (Jwara)" "__" = false.
Proof. split; reflexivity. Qed.

End LikeFacts.

(** ** Scorer: letter case, bounds, and the query filter *)

Section ScorerMore.

Import Js ScoreSpec LetterCase.

Lemma lower_upper_ascii (c : ascii) : lower_ascii (upper_ascii c) = lower_ascii c.
Proof.
  destruct c as [b0 b1 b2 b3 b4 b5 b6 b7].
  destruct b0, b1, b2, b3, b4, b5, b6, b7; reflexivity.
Qed.

Lemma toLowerCase_toUpperCase (s : string) : toLowerCase (toUpperCase s) = toLowerCase s.
Proof.
  induction s as [| c s IH]; simpl; [reflexivity |].
  rewrite lower_upper_ascii, IH. reflexivity.
Qed.

Lemma truthyStr_toUpperCase (s : string) : truthyStr (toUpperCase s) = truthyStr s.
Proof. destruct s; reflexivity. Qed.

Lemma sum_designations_upper (T : string) (ds : list Designation.t) :
  sumZ (map (designationPart T) (map upperDesignation ds))
  = sumZ (map (designationPart T) ds).
Proof.
  induction ds as [| d ds IH]; simpl; [reflexivity |].
  rewrite IH. f_equal.
  unfold designationPart, equalsCI, containsCI, upperDesignation. simpl.
  rewrite toLowerCase_toUpperCase. reflexivity.
Qed.

(** The score does not depend on the letter case of the search term nor
    on that of the concept's texts. *)
Theorem score_ignores_letter_case (c : Concept.t) (T : string) :
  calculateRelevanceScore c (toUpperCase T) = calculateRelevanceScore c T
  /\ calculateRelevanceScore (upperConcept c) T = calculateRelevanceScore c T.
Proof.
  split.
  - unfold calculateRelevanceScore. rewrite toLowerCase_toUpperCase. reflexivity.
  - rewrite !score_decompose.
    destruct c as [code display definition designations].
    unfold codePart, guardedDisplay, guardedDefinition, displayPart, definitionPart,
      designationsOf, equalsCI, startsWithCI, containsCI, upperConcept, upperOpt.
    cbn [Concept.code Concept.display Concept.definition Concept.designations].
    rewrite toLowerCase_toUpperCase.
    f_equal; [f_equal; [f_equal |] |].
    + destruct display as [d |]; simpl; [| reflexivity].
      rewrite truthyStr_toUpperCase, toLowerCase_toUpperCase. reflexivity.
    + destruct definition as [d |]; simpl; [| reflexivity].
      rewrite truthyStr_toUpperCase, toLowerCase_toUpperCase. reflexivity.
    + destruct designations as [ds |]; simpl; [| reflexivity].
      apply sum_designations_upper.
Qed.

Lemma designationPart_le T d : designationPart T d <= 60.
Proof.
  unfold designationPart.
  destruct (equalsCI (Designation.value d) T), (containsCI (Designation.value d) T); lia.
Qed.

Lemma sum_designations_le T ds :
  sumZ (map (designationPart T) ds) <= 60 * Z.of_nat (length ds).
Proof.
  induction ds as [| d ds IH]; simpl length; simpl map; simpl sumZ; [lia |].
  pose proof (designationPart_le T d). lia.
Qed.

(** The score is at most 210 plus 60 for each designation of the
    concept. *)
Theorem score_upper_bound (c : Concept.t) (T : string) :
  calculateRelevanceScore c T <= 210 + 60 * Z.of_nat (length (designationsOf c)).
Proof.
  rewrite score_decompose.
  pose proof (sum_designations_le T (designationsOf c)) as Hs.
  assert (H1 : codePart c T <= 100).
  { unfold codePart.
    destruct (equalsCI (Concept.code c) T), (containsCI (Concept.code c) T); lia. }
  assert (H2 : guardedDisplay c T <= 90).
  { unfold guardedDisplay, displayPart.
    destruct (truthy _); [| lia].
    destruct (Concept.display c) as [d |]; [| lia].
    destruct (equalsCI d T), (startsWithCI d T), (containsCI d T); lia. }
  assert (H3 : guardedDefinition c T <= 20).
  { unfold guardedDefinition, definitionPart.
    destruct (truthy _); [| lia].
    destruct (Concept.definition c) as [d |]; [| lia].
    destruct (containsCI d T); lia. }
  lia.
Qed.






End ScorerMore.

(** ** Resolver: target restriction and the two directions *)

Section ResolverMore.

Import ResolverSpec.

Lemma findReverse_reverseEdges (st : Store) (code system : string) :
  findReverseMappingsForConcept st code system = reverseEdges st code system.
Proof.
  unfold findReverseMappingsForConcept, reverseEdges, Prisma.conceptMap_findMany_target.
  rewrite flat_map_map. apply flat_map_ext. intros cm. simpl.
  rewrite flat_map_map. apply flat_map_ext. intros g. simpl.
  rewrite flat_map_map. apply flat_map_ext. intros e. simpl.
  unfold firstMatchingTarget. rewrite <- head_filter_find.
  destruct (List.filter _ (MappingElement.targets e)); reflexivity.
Qed.

Lemma filter_flat_map {A B : Type} (p : B -> bool) (f : A -> list B) (l : list A) :
  List.filter p (flat_map f l) = flat_map (fun a => List.filter p (f a)) l.
Proof.
  induction l as [| a l IH]; simpl; [reflexivity |].
  rewrite List.filter_app, IH. reflexivity.
Qed.

Lemma flat_map_filter {A B : Type} (q : A -> bool) (f : A -> list B) (l : list A) :
  flat_map f (List.filter q l) = flat_map (fun a => if q a then f a else []) l.
Proof.
  induction l as [| a l IH]; simpl; [reflexivity |].
  destruct (q a); simpl; rewrite IH; reflexivity.
Qed.

Lemma filter_all {A : Type} (p : A -> bool) (l : list A) :
  (forall x, In x l -> p x = true) -> List.filter p l = l.
Proof.
  induction l as [| a l IH]; intros H; simpl; [reflexivity |].
  rewrite (H a (or_introl eq_refl)). f_equal. apply IH.
  intros x Hx. apply H. right. exact Hx.
Qed.

Lemma filter_none {A : Type} (p : A -> bool) (l : list A) :
  (forall x, In x l -> p x = false) -> List.filter p l = [].
Proof.
  induction l as [| a l IH]; intros H; simpl; [reflexivity |].
  rewrite (H a (or_introl eq_refl)). apply IH.
  intros x Hx. apply H. right. exact Hx.
Qed.

(** The edges one concept map contributes to a forward lookup all lead to
    its [targetUri]. *)
Lemma edgesOf_targetSystem (code : string) (cm : ConceptMap.t) (m : Mapping) :
  In m (flat_map (fun g =>
          flat_map (fun e => map (forwardEdge cm) (MappingElement.targets e))
            (List.filter (fun e => String.eqb (MappingElement.code e) code)
               (MappingGroup.elements g)))
          (ConceptMap.groups cm)) ->
  targetSystem m = ConceptMap.targetUri cm.
Proof.
  intros H. apply in_flat_map in H. destruct H as (g & _ & H).
  apply in_flat_map in H. destruct H as (e & _ & H).
  apply in_map_iff in H. destruct H as (t & <- & _). reflexivity.
Qed.

(** A forward lookup restricted to a target system returns the edges of
    the unrestricted lookup that lead to that system, in the same order. *)
Theorem forward_lookup_target_is_filter (st : Store) (code system ts : string) :
  ts <> "" ->
  findMappingsForConcept st code system (Some ts)
  = List.filter (fun m => String.eqb (targetSystem m) ts)
      (findMappingsForConcept st code system None).
Proof.
  intros Hts. rewrite !findMappings_forwardEdges. unfold forwardEdges.
  rewrite filter_flat_map, !flat_map_filter.
  apply flat_map_ext. intros cm. unfold selectsb.
  assert (E : String.eqb ts "" = false).
  { destruct (String.eqb ts "") eqn:E; [| reflexivity].
    apply String.eqb_eq in E. contradiction. }
  rewrite E. cbn [orb]. rewrite andb_true_r.
  destruct (String.eqb (ConceptMap.sourceUri cm) system); cbn [andb]; [| reflexivity].
  destruct (String.eqb (ConceptMap.targetUri cm) ts) eqn:Et.
  - symmetry. apply filter_all. intros m Hm.
    rewrite (edgesOf_targetSystem code cm m Hm). exact Et.
  - symmetry. apply filter_none. intros m Hm.
    rewrite (edgesOf_targetSystem code cm m Hm). exact Et.
Qed.

Lemma find_is_Some {A : Type} (p : A -> bool) (l : list A) (x : A) :
  In x l -> p x = true -> exists y, find p l = Some y.
Proof.
  induction l as [| a l IH]; intros Hx Hp; [destruct Hx |].
  simpl. destruct (p a) eqn:Ea; [eexists; reflexivity |].
  destruct Hx as [-> | Hx]; [congruence | apply IH; assumption].
Qed.

(** Every edge a forward lookup returns can be found again from its
    target side: the reverse lookup of the edge's target code in the
    edge's target system returns an edge back to the source code. *)
Theorem forward_edge_has_reverse_edge (st : Store) (code system : string)
    (target : option string) (m : Mapping) :
  In m (findMappingsForConcept st code system target) ->
  exists r,
    In r (findReverseMappingsForConcept st (targetCode m) (targetSystem m))
    /\ sourceSystem r = system
    /\ sourceCode r = code.
Proof.
  rewrite findMappings_forwardEdges, findReverse_reverseEdges.
  unfold forwardEdges, reverseEdges. intros H.
  apply in_flat_map in H. destruct H as (cm & Hcm & H).
  apply filter_In in Hcm. destruct Hcm as [Hcm Hsel].
  apply in_flat_map in H. destruct H as (g & Hg & H).
  apply in_flat_map in H. destruct H as (e & He & H).
  apply filter_In in He. destruct He as [He Hcode].
  apply in_map_iff in H. destruct H as (t & <- & Ht).
  unfold selectsb in Hsel. apply andb_true_iff in Hsel. destruct Hsel as [Hsrc _].
  apply String.eqb_eq in Hsrc. apply String.eqb_eq in Hcode.
  cbn [forwardEdge targetCode targetSystem].
  destruct (find_is_Some (fun t' => String.eqb (MappingTarget.code t') (MappingTarget.code t))
              (MappingElement.targets e) t Ht (String.eqb_refl _)) as [t' Ht'].
  exists (reverseEdge cm e t'). split; [| split; [exact Hsrc | exact Hcode]].
  apply in_flat_map. exists cm. split.
  { apply filter_In. split; [exact Hcm | apply String.eqb_refl]. }
  apply in_flat_map. exists g. split; [exact Hg |].
  apply in_flat_map. exists e. split; [exact He |].
  unfold firstMatchingTarget. rewrite Ht'. left. reflexivity.
Qed.

(** Every edge a reverse lookup returns comes from an edge of the forward
    direction: the forward lookup of its source code, restricted to the
    target system, returns the target code with the same equivalence. *)
Theorem reverse_edge_has_forward_edge (st : Store) (code system : string)
    (r : ReverseMapping) :
  In r (findReverseMappingsForConcept st code system) ->
  exists m,
    In m (findMappingsForConcept st (sourceCode r) (sourceSystem r) (Some system))
    /\ targetCode m = code
    /\ targetSystem m = system
    /\ equivalence m = rev_equivalence r.
Proof.
  rewrite findMappings_forwardEdges, findReverse_reverseEdges.
  unfold forwardEdges, reverseEdges. intros H.
  apply in_flat_map in H. destruct H as (cm & Hcm & H).
  apply filter_In in Hcm. destruct Hcm as [Hcm Htgt].
  apply in_flat_map in H. destruct H as (g & Hg & H).
  apply in_flat_map in H. destruct H as (e & He & H).
  unfold firstMatchingTarget in H.
  destruct (find _ (MappingElement.targets e)) as [t |] eqn:Ef; [| destruct H].
  destruct H as [<- | []].
  apply find_some in Ef. destruct Ef as [Ht Hc].
  apply String.eqb_eq in Hc. apply String.eqb_eq in Htgt.
  exists (forwardEdge cm t). cbn [reverseEdge sourceCode sourceSystem rev_equivalence].
  split; [| repeat split; assumption].
  apply in_flat_map. exists cm. split.
  { apply filter_In. split; [exact Hcm |]. unfold selectsb.
    rewrite String.eqb_refl. cbn [andb].
    apply orb_true_iff. right. apply String.eqb_eq. exact Htgt. }
  apply in_flat_map. exists g. split; [exact Hg |].
  apply in_flat_map. exists e. split.
  { apply filter_In. split; [exact He | apply String.eqb_refl]. }
  apply in_map. exact Ht.
Qed.

End ResolverMore.

(** ** Autocomplete: what is returned, from where, and how many *)

Section AutocompleteMore.

Import Js Autocomplete.

Lemma insertSorted_length {A : Type} (cmp : A -> A -> Z) (a : A) (l : list A) :
  length (insertSorted cmp a l) = S (length l).
Proof.
  induction l as [| b l IH]; simpl; [reflexivity |].
  destruct (cmp a b <=? 0); simpl; [reflexivity | rewrite IH; reflexivity].
Qed.

Lemma sort_length {A : Type} (cmp : A -> A -> Z) (l : list A) :
  length (sort cmp l) = length l.
Proof.
  induction l as [| a l IH]; simpl; [reflexivity |].
  rewrite insertSorted_length, IH. reflexivity.
Qed.

Lemma insertSorted_Permutation {A : Type} (cmp : A -> A -> Z) (a : A) (l : list A) :
  Permutation (insertSorted cmp a l) (a :: l).
Proof.
  induction l as [| b l IH]; simpl; [reflexivity |].
  destruct (cmp a b <=? 0); [reflexivity |].
  rewrite IH. apply perm_swap.
Qed.

Lemma sort_Permutation {A : Type} (cmp : A -> A -> Z) (l : list A) :
  Permutation (sort cmp l) l.
Proof.
  induction l as [| a l IH]; simpl; [reflexivity |].
  rewrite insertSorted_Permutation, IH. reflexivity.
Qed.

Lemma slice0_all {A : Type} (n : Z) (l : list A) :
  Z.of_nat (length l) <= n -> slice0 n l = l.
Proof.
  intros H. unfold slice0.
  assert (E : (n <? 0) = false) by (apply Z.ltb_ge; lia). rewrite E.
  rewrite Z.min_r by lia. rewrite Nat2Z.id. apply firstn_all.
Qed.

Lemma slice0_In {A : Type} (n : Z) (l : list A) (x : A) :
  In x (slice0 n l) -> In x l.
Proof.
  unfold slice0. intros H.
  rewrite <- (firstn_skipn (Z.to_nat (if n <? 0 then Z.max (Z.of_nat (length l) + n) 0
                                      else Z.min n (Z.of_nat (length l)))) l).
  apply in_or_app. left. exact H.
Qed.

Lemma limited_In_collect (st : Store) (q : Query) (s : string) (r : Result) :
  In r (limitedResults st q s) -> In r (collect st q s).
Proof.
  unfold limitedResults. intros H. apply slice0_In in H.
  eapply Permutation_in; [apply sort_Permutation | exact H].
Qed.

Lemma take_In {A : Type} (n : Z) (l : list A) (x : A) :
  In x (Prisma.take n l) -> In x l.
Proof.
  unfold Prisma.take. destruct (n <? 0); intros H.
  - rewrite <- (firstn_skipn (length l - Z.to_nat (- n)) l).
    apply in_or_app. right. exact H.
  - rewrite <- (firstn_skipn (Z.to_nat n) l). apply in_or_app. left. exact H.
Qed.

Lemma take_length {A : Type} (n : Z) (l : list A) :
  0 <= n -> Z.of_nat (length (Prisma.take n l)) <= n.
Proof.
  intros H. unfold Prisma.take.
  assert (E : (n <? 0) = false) by (apply Z.ltb_ge; lia). rewrite E.
  rewrite length_firstn. lia.
Qed.

(** Where a collected result comes from. *)
Lemma collect_inv (st : Store) (q : Query) (s : string) (r : Result) :
  In r (collect st q s) ->
  exists systemKey systemUrl cs c,
    In systemKey (systemsToSearch q)
    /\ systemUrls systemKey = Some systemUrl
    /\ (truthy (system q) = true -> system q = Some systemUrl)
    /\ In cs (codeSystems st)
    /\ CodeSystem.url cs = systemUrl
    /\ In c (CodeSystem.concepts cs)
    /\ Prisma.conceptWhere s (flag (includeDesignations q)) c = true
    /\ r_system r = systemUrl
    /\ r_code r = StoredConcept.code c
    /\ r_terminology r = toUpperCase systemKey
    /\ r_score r
       = calculateRelevanceScore (StoredConcept.load (flag (includeDesignations q)) c) s.
Proof.
  intros Hr. unfold collect in Hr.
  apply in_flat_map in Hr. destruct Hr as (systemKey & Hkey & Hr).
  unfold searchSystem in Hr.
  destruct (systemUrls systemKey) as [systemUrl |] eqn:Hurl; [| destruct Hr].
  destruct (truthy (system q) && negb (strictEq (default "" (system q)) systemUrl)) eqn:Hsys;
    [destruct Hr |].
  unfold Prisma.codeSystem_findUnique in Hr.
  destruct (find _ (codeSystems st)) as [cs |] eqn:Hfind; [| destruct Hr].
  apply find_some in Hfind. destruct Hfind as [Hcs Heq]. apply String.eqb_eq in Heq.
  cbn [Prisma.concepts] in Hr.
  apply in_map_iff in Hr. destruct Hr as (k & <- & Hk).
  apply in_map_iff in Hk. destruct Hk as (c & <- & Hc).
  apply take_In, filter_In in Hc. destruct Hc as [Hc Hw].
  exists systemKey, systemUrl, cs, c.
  repeat split; try assumption; try reflexivity.
  intros Ht. rewrite Ht in Hsys. cbn [andb] in Hsys.
  apply negb_false_iff in Hsys. unfold strictEq in Hsys. apply String.eqb_eq in Hsys.
  destruct (system q) as [u |]; [| discriminate Ht]. simpl in Hsys. congruence.
Qed.

(** Every match comes from one of the requested systems that the route
    knows, carries that system's alias in upper case, and, when a single
    [system] is asked for, belongs to that system. *)
Theorem autocomplete_results_from_requested_systems (st : Store) (q : Query)
    (s : string) (r : Result) :
  In r (limitedResults st q s) ->
  (exists systemKey,
     In systemKey (systemsToSearch q)
     /\ systemUrls systemKey = Some (r_system r)
     /\ r_terminology r = toUpperCase systemKey)
  /\ (truthy (system q) = true -> system q = Some (r_system r)).
Proof.
  intros H. apply limited_In_collect, collect_inv in H.
  destruct H as (systemKey & systemUrl & cs & c & Hkey & Hurl & Hsys & _ & _ & _ & _
                 & Hrs & _ & Hterm & _).
  rewrite Hrs. split.
  - exists systemKey. repeat split; assumption.
  - exact Hsys.
Qed.



Lemma searchSystem_length (st : Store) (q : Query) (s systemKey : string) :
  0 <= parsedLimit q ->
  Z.of_nat (length (searchSystem st q s systemKey)) <= Z.min (parsedLimit q) 50.
Proof.
  intros H. unfold searchSystem.
  destruct (systemUrls systemKey); [| simpl; lia].
  destruct (truthy (system q) && _); [simpl; lia |].
  unfold Prisma.codeSystem_findUnique.
  destruct (find _ (codeSystems st)); [| simpl; lia].
  cbn [Prisma.concepts]. rewrite !length_map. apply take_length. lia.
Qed.

(** With a limit that is not negative, each requested system contributes
    at most min(limit, 50) results to the merged list. *)
Theorem autocomplete_collects_at_most_50_per_system (st : Store) (q : Query) (s : string) :
  0 <= parsedLimit q ->
  Z.of_nat (length (collect st q s))
  <= Z.min (parsedLimit q) 50 * Z.of_nat (length (systemsToSearch q)).
Proof.
  intros H. unfold collect.
  induction (systemsToSearch q) as [| k ks IH]; [simpl; lia |].
  cbn [flat_map]. rewrite length_app.
  pose proof (searchSystem_length st q s k H).
  simpl length. lia.
Qed.

(** When the limit covers all collected results, none is dropped: the
    matches are the collected results in another order. *)
Theorem autocomplete_keeps_all_within_limit (st : Store) (q : Query) (s : string) :
  Z.of_nat (length (collect st q s)) <= parsedLimit q ->
  Permutation (limitedResults st q s) (collect st q s).
Proof.
  intros H. unfold limitedResults.
  rewrite slice0_all by (rewrite sort_length; exact H).
  apply sort_Permutation.
Qed.

(** The response is consistent: its [matches] number is the number of its
    [match] entries, and [result] tells whether there is any. *)
Theorem autocomplete_response_counts (st : Store) (q : Query) (ps : list FhirParameter) :
  handler st q = Ok ps ->
  In (PInteger "matches" (Z.of_nat (length (paramsNamed "match" ps)))) ps
  /\ resultFlag ps = Some (0 <? Z.of_nat (length (paramsNamed "match" ps))).
Proof.
  unfold handler. destruct (search q) as [s |]; [| discriminate].
  destruct (negb (truthyStr s) || _); [discriminate |].
  intros H. injection H as <-.
  rewrite response_matches, length_imap.
  unfold response. split; [right; left; reflexivity | reflexivity].
Qed.

End AutocompleteMore.

(** ** Translate: the request body and the match entries *)

Section TranslateMore.

Import Js Translate.

Lemma collect_lookup_absent (k : string) (ps : list BodyParameter) :
  (forall p, In p ps -> name p <> k) ->
  forall acc : gmap string value,
    fold_left collectParam ps acc !! k = acc !! k.
Proof.
  induction ps as [| p ps IH]; intros H acc; simpl; [reflexivity |].
  rewrite IH by (intros p' Hp'; apply H; right; exact Hp').
  unfold collectParam. apply lookup_insert_ne. apply H. left. reflexivity.
Qed.

Lemma prop_absent (k : string) (ps : list BodyParameter) :
  (forall p, In p ps -> name p <> k) ->
  prop (parseParameters (Some ps)) k = VUndefined.
Proof.
  intros H. unfold prop, parseParameters.
  rewrite (collect_lookup_absent k ps H ∅). rewrite lookup_empty. reflexivity.
Qed.

(** A request without parameter list, without an entry named [code] or
    without an entry named [system] fails with the validation error,
    whatever the store holds. *)
Theorem translate_requires_code_and_system (st : Store)
    (parameter : option (list BodyParameter)) :
  (forall ps, parameter = Some ps ->
     (forall p, In p ps -> name p <> "code")
     \/ (forall p, In p ps -> name p <> "system")) ->
  handler st parameter
  = Throw (ValidationError "code and system parameters are required").
Proof.
  intros H. unfold handler. cbv zeta.
  destruct parameter as [ps |].
  - destruct (H ps eq_refl) as [Hc | Hs].
    + rewrite (prop_absent "code" ps Hc). reflexivity.
    + rewrite (prop_absent "system" ps Hs). cbn [truthyVal negb]. rewrite orb_true_r.
      reflexivity.
  - reflexivity.
Qed.


Lemma paramsNamed_match_parts (ms : list Mapping) :
  paramsNamed "match" (map matchPart ms) = map matchPart ms.
Proof.
  unfold paramsNamed. apply filter_all. intros x Hx.
  apply in_map_iff in Hx. destruct Hx as (m & <- & _). reflexivity.
Qed.

Lemma paramsNamed_source_parts (ms : list Mapping) :
  paramsNamed "source" (map matchPart ms) = [].
Proof.
  unfold paramsNamed. apply filter_none. intros x Hx.
  apply in_map_iff in Hx. destruct Hx as (m & <- & _). reflexivity.
Qed.

(** A response with [result = true] lists every mapping of the forward
    lookup as a [match] entry, in the order of the lookup, after a
    [source] entry that repeats the code and the system. *)
Theorem translate_lists_every_mapping (st : Store)
    (parameter : option (list BodyParameter)) (ps : list FhirParameter) :
  handler st parameter = Ok ps ->
  resultFlag ps = Some true ->
  exists code system display,
    prop (parseParameters parameter) "code" = VString code
    /\ prop (parseParameters parameter) "system" = VString system
    /\ paramsNamed "source" ps = [PCoding "source" (mkCoding system code display None)]
    /\ paramsNamed "match" ps
       = map matchPart
           (findMappingsForConcept st code system
              (targetSystemOf (prop (parseParameters parameter) "target")))
    /\ paramsNamed "match" ps <> [].
Proof.
  unfold handler. cbv zeta.
  destruct (negb _ || negb _); [discriminate |].
  destruct (prop (parseParameters parameter) "code") as [| code |]; try discriminate.
  destruct (prop (parseParameters parameter) "system") as [| system |]; try discriminate.
  destruct (Prisma.codeSystemConcept_findFirst st code system)
    as [[codeSystem sourceConcept] |] eqn:Hf.
  2:{ intros H. injection H as <-. discriminate. }
  assert (Hurl : CodeSystem.url codeSystem = system
                 /\ StoredConcept.code sourceConcept = code).
  { unfold Prisma.codeSystemConcept_findFirst in Hf.
    destruct (flat_map _ (codeSystems st)) as [| x xs] eqn:Hl; [discriminate |].
    simpl in Hf. injection Hf as ->.
    assert (Hin : In (codeSystem, sourceConcept) (flat_map
              (fun cs => if String.eqb (CodeSystem.url cs) system
                         then map (fun c => (cs, c))
                                (List.filter (fun c => String.eqb (StoredConcept.code c) code)
                                   (CodeSystem.concepts cs))
                         else []) (codeSystems st)))
      by (rewrite Hl; left; reflexivity).
    apply in_flat_map in Hin. destruct Hin as (cs & _ & Hin).
    destruct (String.eqb (CodeSystem.url cs) system) eqn:Eu; [| destruct Hin].
    apply in_map_iff in Hin. destruct Hin as (c & Hc & Hin).
    injection Hc as -> ->. apply filter_In in Hin. destruct Hin as [_ Ec].
    apply String.eqb_eq in Eu, Ec. split; assumption. }
  destruct Hurl as [Hu Hc].
  assert (Hshape : forall ms : list Mapping,
             ms <> [] ->
             let ps' := [PBoolean "result" true;
                         PCoding "source"
                           (mkCoding (CodeSystem.url codeSystem)
                              (StoredConcept.code sourceConcept)
                              (StoredConcept.display sourceConcept) None)]
                        ++ map matchPart ms in
             paramsNamed "source" ps'
             = [PCoding "source"
                  (mkCoding system code (StoredConcept.display sourceConcept) None)]
             /\ paramsNamed "match" ps' = map matchPart ms
             /\ paramsNamed "match" ps' <> []).
  { intros ms Hne ps'. subst ps'. rewrite Hu, Hc.
    pose proof (paramsNamed_match_parts ms) as Hmatch.
    pose proof (paramsNamed_source_parts ms) as Hsource.
    unfold paramsNamed in *. rewrite !List.filter_app, Hmatch, Hsource.
    split; [reflexivity |]. split; [reflexivity |].
    destruct ms; [contradiction | discriminate]. }
  destruct (prop (parseParameters parameter) "target") as [| t | [|]];
    try discriminate;
    (destruct (findMappingsForConcept st code system _) as [| m ms] eqn:Hm;
     intros H; injection H as <-; intros Hflag; try discriminate Hflag;
     exists code, system, (StoredConcept.display sourceConcept);
     split; [reflexivity |]; split; [reflexivity |];
     cbn [targetSystemOf] in Hm |- *; rewrite ?Hm;
     apply (Hshape (m :: ms)); discriminate).
Qed.

End TranslateMore.

(** ** Dual-code lookup: the shape of the response *)

Section DualCodeLookupMore.

Import Js DualCodeLookup.

(** The entries after [result] are, in this order: [namaste], followed by
    [mappedIcd11Codes] if the code has mappings, when the NAMASTE code is
    found; then [icd11], followed by [mappedNamasteCodes] if the code has
    reverse mappings, when the ICD-11 code is found. *)
Theorem dual_lookup_response_shape (st : Store) (q : Query) (ps : list FhirParameter) :
  handler st q = Ok ps ->
  exists namastePart icd11Part,
    map paramName ps = "result" :: namastePart ++ icd11Part
    /\ (namastePart = [] \/ namastePart = ["namaste"]
        \/ namastePart = ["namaste"; "mappedIcd11Codes"])
    /\ (icd11Part = [] \/ icd11Part = ["icd11"]
        \/ icd11Part = ["icd11"; "mappedNamasteCodes"]).
Proof.
  unfold handler. destruct (negb _ && negb _); [discriminate |].
  intros H. injection H as <-.
  exists (map paramName (lookupNamaste st q)), (map paramName (lookupIcd11 st q)).
  split; [cbn [map paramName]; rewrite map_app; reflexivity |].
  split.
  - unfold lookupNamaste. destruct (truthy (namasteCode q)); [| left; reflexivity].
    destruct (Prisma.codeSystemConcept_findFirst st _ namasteUrl) as [[cs c] |];
      [| left; reflexivity].
    destruct (findMappingsForConcept st _ _ None);
      [right; left; reflexivity | right; right; reflexivity].
  - unfold lookupIcd11. destruct (truthy (icd11Code q)); [| left; reflexivity].
    unfold icd11Systems. cbn [lookupIcd11In].
    destruct (Prisma.codeSystemConcept_findFirst st _ "http://id.who.int/icd/release/11/mms")
      as [[cs c] |].
    + destruct (findReverseMappingsForConcept st _ _);
        [right; left; reflexivity | right; right; reflexivity].
    + destruct (Prisma.codeSystemConcept_findFirst st _ "https://icd.who.int/browse11/l-m/en")
        as [[cs c] |]; [| left; reflexivity].
      destruct (findReverseMappingsForConcept st _ _);
        [right; left; reflexivity | right; right; reflexivity].
Qed.

(** A request for one NAMASTE code that is found and has no mapping is
    answered with the concept entry and [result = false]: the flag counts
    the entries before it is inserted and needs two of them. *)
Theorem dual_lookup_single_unmapped_code (st : Store) (q : Query) (c : string)
    (cs : CodeSystem.t) (k : StoredConcept.t) :
  namasteCode q = Some c ->
  c <> "" ->
  truthy (icd11Code q) = false ->
  Prisma.codeSystemConcept_findFirst st c namasteUrl = Some (cs, k) ->
  findMappingsForConcept st c (CodeSystem.url cs) None = [] ->
  exists part,
    handler st q = Ok [PBoolean "result" false; PPart "namaste" part]
    /\ In (PCoding "code" (mkCoding (CodeSystem.url cs) (StoredConcept.code k)
                             (StoredConcept.display k) None)) part.
Proof.
  intros Hq Hc Hi Hf Hm. unfold handler, lookupNamaste, lookupIcd11.
  rewrite Hq, Hi.
  assert (T : truthy (Some c) = true).
  { unfold truthy, truthyStr. destruct (String.eqb c "") eqn:E; [| reflexivity].
    apply String.eqb_eq in E. contradiction. }
  rewrite T. cbn [negb andb default from_option]. unfold id. rewrite Hf, Hm.
  eexists. split; [reflexivity |]. left. reflexivity.
Qed.

End DualCodeLookupMore.

(** ** Error middleware and request validation *)

Section MiddlewareFacts.

Import Js ErrorHandler RequestLogger TerminologyRouter.

Lemma database_error_cases (development : bool) (err : Err) :
  prismaKnown err = true ->
  let r := errorHandler development err in
  (code err = Some "P2002" /\ status r = 409 /\ issueCode r = "duplicate-key"
   /\ text r = "Resource already exists")
  \/ (code err = Some "P2025" /\ status r = 404 /\ issueCode r = "not-found"
      /\ text r = "Resource not found")
  \/ (code err <> Some "P2002" /\ code err <> Some "P2025" /\ status r = 400
      /\ issueCode r = "database-error" /\ text r = "Database operation failed").
Proof.
  intros Hp. unfold errorHandler, strictEq. rewrite Hp.
  destruct (code err) as [c |]; simpl default.
  - destruct (String.eqb c "P2002") eqn:E1.
    + apply String.eqb_eq in E1. subst c. left. repeat split.
    + destruct (String.eqb c "P2025") eqn:E2.
      * apply String.eqb_eq in E2. subst c. right. left. repeat split.
      * right. right. apply String.eqb_neq in E1, E2.
        repeat split; congruence.
  - right. right. repeat split; discriminate.
Qed.

(** An error that comes from the database is answered with one of three
    fixed triples of status, issue code and text, chosen by its code
    alone.  Its stack, which holds its name and message, is sent as
    diagnostics exactly when the process runs in development; outside
    development two database errors with the same code are answered
    alike, whatever their message, name and status code. *)
Theorem database_errors_answered_by_code (development : bool) (err : Err) :
  prismaKnown err = true ->
  let r := errorHandler development err in
  showsStack r = development
  /\ ((code err = Some "P2002" /\ status r = 409 /\ issueCode r = "duplicate-key"
       /\ text r = "Resource already exists")
      \/ (code err = Some "P2025" /\ status r = 404 /\ issueCode r = "not-found"
          /\ text r = "Resource not found")
      \/ (code err <> Some "P2002" /\ code err <> Some "P2025" /\ status r = 400
          /\ issueCode r = "database-error" /\ text r = "Database operation failed"))
  /\ forall err',
       prismaKnown err' = true ->
       code err' = code err ->
       errorHandler false err' = errorHandler false err.
Proof.
  intros Hp. cbv zeta. split; [| split].
  - unfold errorHandler.
    destruct (if prismaKnown err then _ else _) as [[s c] t]. reflexivity.
  - exact (database_error_cases development err Hp).
  - intros err' Hp' Hc. unfold errorHandler. rewrite Hp, Hp', Hc. reflexivity.
Qed.

(** The three error classes of the module are answered with their own
    status and message: a ValidationError with 400 validation-error, a
    NotFoundError with 404 not-found and the text "<type>/<id> not found",
    a FHIRValidationError with 400 fhir-validation-error. *)
Lemma error_classes_keep_status_and_message (development : bool)
    (message resourceType id : string) :
  errorHandler development (newValidationError message)
  = mkResponse 400 "validation-error" message development
  /\ errorHandler development (newNotFoundError resourceType id)
     = mkResponse 404 "not-found" (resourceType +:+ "/" +:+ id +:+ " not found") development
  /\ errorHandler development (newFHIRValidationError message)
     = mkResponse 400 "fhir-validation-error" message development.
Proof. repeat split. Qed.

Lemma includes_cons (c : ascii) (s t : string) :
  includes (String c s) t = startsWith (String c s) t || includes s t.
Proof. reflexivity. Qed.

Lemma includes_append_l (p x t : string) :
  includes x t = true -> includes (p +:+ x) t = true.
Proof.
  intros H. induction p as [| c p IH]; [exact H |].
  change (String c p +:+ x) with (String c (p +:+ x)).
  rewrite includes_cons, IH. apply orb_true_r.
Qed.

Lemma startsWith_append (t s : string) : startsWith (t +:+ s) t = true.
Proof.
  induction t as [| c t IH]; [destruct s; reflexivity |].
  change (String c t +:+ s) with (String c (t +:+ s)).
  cbn [startsWith]. rewrite Ascii.eqb_refl. exact IH.
Qed.

Lemma includes_middle (p t s : string) : includes (p +:+ t +:+ s) t = true.
Proof. apply includes_append_l, includes_startsWith, startsWith_append. Qed.

Lemma namesJson_middle (p s : string) :
  namesJson (p +:+ "application/json" +:+ s) = true
  /\ namesJson (p +:+ "application/fhir+json" +:+ s) = true.
Proof.
  unfold namesJson. split.
  - rewrite (includes_middle p "application/json" s). apply orb_true_r.
  - rewrite (includes_middle p "application/fhir+json" s). reflexivity.
Qed.

(** The header checks look for the media type anywhere in the header
    value: a request passes whenever its Accept and Content-Type headers
    contain application/json or application/fhir+json, whatever stands
    before and after (other media types, parameters such as a charset). *)
Theorem validate_accepts_media_type_anywhere (req : Request)
    (a1 a2 c1 c2 : string) (fhirAccept fhirContent : bool) :
  accept req
  = Some (a1 +:+ (if fhirAccept then "application/fhir+json" else "application/json")
             +:+ a2) ->
  contentType req
  = Some (c1 +:+ (if fhirContent then "application/fhir+json" else "application/json")
             +:+ c2) ->
  validateFHIRRequest req = Next.
Proof.
  intros Ha Hc. unfold validateFHIRRequest. rewrite Ha, Hc. simpl default.
  assert (Na : namesJson (a1 +:+ (if fhirAccept then "application/fhir+json"
                                  else "application/json") +:+ a2) = true)
    by (destruct fhirAccept; apply namesJson_middle).
  assert (Nc : namesJson (c1 +:+ (if fhirContent then "application/fhir+json"
                                  else "application/json") +:+ c2) = true)
    by (destruct fhirContent; apply namesJson_middle).
  rewrite Na, Nc. rewrite andb_false_r.
  assert (Tc : truthy (Some (c1 +:+ (if fhirContent then "application/fhir+json"
                                     else "application/json") +:+ c2)) = true).
  { unfold truthy, truthyStr.
    destruct (String.eqb _ "") eqn:E; [| reflexivity].
    apply String.eqb_eq in E. rewrite E in Nc. discriminate. }
  rewrite Tc. cbn [negb orb]. destruct (_ || _); reflexivity.
Qed.

Lemma validate_verdicts (req : Request) :
  validateFHIRRequest req = Next
  \/ validateFHIRRequest req
     = Respond 406 "not-acceptable"
         "Accept header must include application/fhir+json or application/json"
  \/ (validateFHIRRequest req
      = Respond 415 "unsupported-media-type"
          "Content-Type must be application/fhir+json or application/json"
      /\ (method req = "POST" \/ method req = "PUT")).
Proof.
  unfold validateFHIRRequest.
  destruct (truthy (accept req) && _); [right; left; reflexivity |].
  unfold strictEq.
  destruct (String.eqb (method req) "POST") eqn:E1.
  - apply String.eqb_eq in E1. cbn [orb].
    destruct (negb _ || negb _); [right; right; auto | left; reflexivity].
  - destruct (String.eqb (method req) "PUT") eqn:E2; cbn [orb]; [| left; reflexivity].
    apply String.eqb_eq in E2.
    destruct (negb _ || negb _); [right; right; auto | left; reflexivity].
Qed.

Lemma finish_cases (env : Env) (o : Outcome (list FhirParameter)) :
  (exists ps, o = Ok ps /\ finish env o = mkHttp 200 (Parameters ps))
  \/ (exists message,
        o = Throw (ValidationError message)
        /\ finish env o = mkHttp 400 (OperationOutcome "validation-error" message))
  \/ (o = Throw PrismaClientValidationError
      /\ finish env o
         = mkHttp 500 (OperationOutcome "internal-server-error" "Internal server error")).
Proof.
  destruct o as [ps | [message |]].
  - left. eexists. split; reflexivity.
  - right. left. eexists. split; reflexivity.
  - right. right. split; reflexivity.
Qed.

(** Each terminology route answers either with status 200 and a
    Parameters body, or with status 400, 406, 415 or 500 and an
    OperationOutcome; the two GET routes never answer 415. *)
Theorem terminology_routes_statuses (env : Env) (st : Store)
    (accept contentType : option string) (q : Autocomplete.Query)
    (parameter : option (list Translate.BodyParameter)) (dq : DualCodeLookup.Query) :
  let wellFormed (r : HttpResponse) :=
    (httpStatus r = 200 /\ exists ps, httpBody r = Parameters ps)
    \/ (In (httpStatus r) [400; 406; 415; 500]
        /\ exists issueCode text, httpBody r = OperationOutcome issueCode text) in
  wellFormed (getAutocomplete env st accept contentType q)
  /\ wellFormed (postTranslate env st accept contentType parameter)
  /\ wellFormed (getDualCodeLookup env st accept contentType dq)
  /\ httpStatus (getAutocomplete env st accept contentType q) <> 415
  /\ httpStatus (getDualCodeLookup env st accept contentType dq) <> 415.
Proof.
  intros wellFormed.
  assert (W : forall req o, wellFormed (route env req o)).
  { intros req o. unfold wellFormed, route.
    destruct (validate_verdicts req) as [-> | [-> | [-> _]]].
    - destruct (finish_cases env o) as [(ps & _ & ->) | [(m & _ & ->) | [_ ->]]];
        cbn [httpStatus httpBody].
      + left. split; [reflexivity | eexists; reflexivity].
      + right. split; [left; reflexivity | do 2 eexists; reflexivity].
      + right. split; [do 3 right; left; reflexivity | do 2 eexists; reflexivity].
    - right. split; [right; left; reflexivity | do 2 eexists; reflexivity].
    - right. split; [do 2 right; left; reflexivity | do 2 eexists; reflexivity]. }
  assert (G : forall o, httpStatus (route env (mkRequest "GET" accept contentType) o) <> 415).
  { intros o. unfold route.
    destruct (validate_verdicts (mkRequest "GET" accept contentType))
      as [-> | [-> | [_ [E | E]]]]; try discriminate E.
    - destruct (finish_cases env o) as [(ps & _ & ->) | [(m & _ & ->) | [_ ->]]];
        discriminate.
    - discriminate. }
  repeat split; try apply W; apply G.
Qed.

(** A request that passes the header checks and fails the validation of
    its handler is answered with status 400, the issue code
    validation-error and the handler's message: a search term that is
    absent or shorter than 2 characters, a translation without code or
    system, a lookup without any code. *)
Theorem terminology_validation_failures_are_400 (env : Env) (st : Store)
    (accept contentType : option string) :
  (forall q,
     validateFHIRRequest (mkRequest "GET" accept contentType) = Next ->
     match Autocomplete.search q with
     | Some s => (String.length s < 2)%nat
     | None => True
     end ->
     getAutocomplete env st accept contentType q
     = mkHttp 400 (OperationOutcome "validation-error"
                     "search parameter must be at least 2 characters"))
  /\ (forall parameter,
        validateFHIRRequest (mkRequest "POST" accept contentType) = Next ->
        truthyVal (Translate.prop (Translate.parseParameters parameter) "code") = false
        \/ truthyVal (Translate.prop (Translate.parseParameters parameter) "system") = false ->
        postTranslate env st accept contentType parameter
        = mkHttp 400 (OperationOutcome "validation-error"
                        "code and system parameters are required"))
  /\ (forall dq,
        validateFHIRRequest (mkRequest "GET" accept contentType) = Next ->
        truthy (DualCodeLookup.namasteCode dq) = false ->
        truthy (DualCodeLookup.icd11Code dq) = false ->
        getDualCodeLookup env st accept contentType dq
        = mkHttp 400 (OperationOutcome "validation-error"
                        "Either namasteCode or icd11Code parameter is required")).
Proof.
  split; [| split].
  - intros q Hv Hs. unfold getAutocomplete, route. rewrite Hv.
    unfold Autocomplete.handler. destruct (Autocomplete.search q) as [s |]; [| reflexivity].
    assert (E : (Z.of_nat (String.length s) <? 2) = true) by (apply Z.ltb_lt; lia).
    rewrite E, orb_true_r. reflexivity.
  - intros parameter Hv Hp. unfold postTranslate, route. rewrite Hv.
    unfold Translate.handler. cbv zeta.
    destruct Hp as [-> | ->]; cbn [negb orb]; [| rewrite orb_true_r]; reflexivity.
  - intros dq Hv Hn Hi. unfold getDualCodeLookup, route. rewrite Hv.
    unfold DualCodeLookup.handler. rewrite Hn, Hi. reflexivity.
Qed.

End MiddlewareFacts.

(** ** Translation through one concept map *)

Section ConceptMapRouteFacts.

Import Js ConceptMapRoute ResolverSpec.

Lemma cm_lookup_after (k : string) (post : list Translate.BodyParameter) :
  (forall x, In x post -> Translate.name x <> k) ->
  forall acc : gmap string value,
    fold_left collectParam post acc !! k = acc !! k.
Proof.
  induction post as [| x post IH]; intros H acc; simpl; [reflexivity |].
  rewrite IH by (intros y Hy; apply H; right; exact Hy).
  unfold collectParam. apply lookup_insert_ne. apply H. left. reflexivity.
Qed.

Lemma cm_lookup_entry (pre post : list Translate.BodyParameter) (p : Translate.BodyParameter) :
  (forall x, In x post -> Translate.name x <> Translate.name p) ->
  Translate.prop (parseParameters (Some (pre ++ p :: post))) (Translate.name p)
  = or (ofString (Translate.valueCode p)) (ofString (Translate.valueUri p)).
Proof.
  intros H. unfold Translate.prop, parseParameters.
  rewrite fold_left_app. cbn [fold_left].
  rewrite (cm_lookup_after _ post H). unfold collectParam at 1.
  rewrite lookup_insert_eq. reflexivity.
Qed.

(** The entries of a body after [code] and [system]. *)
Lemma body_shape (code system : string) (target : option string) (reverse : option bool) :
  exists tail,
    Translate.body code system target reverse
    = Some (Translate.mkParam "code" (Some code) None None
            :: Translate.mkParam "system" None (Some system) None :: tail)
    /\ forall x, In x tail -> Translate.name x = "target" \/ Translate.name x = "reverse".
Proof.
  eexists. split; [reflexivity |].
  intros x Hx. destruct target, reverse; simpl in Hx;
    repeat (destruct Hx as [<- | Hx]; [auto |]); destruct Hx.
Qed.

Lemma body_code (code system : string) (target : option string) (reverse : option bool) :
  Translate.prop (parseParameters (Translate.body code system target reverse)) "code"
  = if truthyStr code then VString code else VUndefined.
Proof.
  destruct (body_shape code system target reverse) as (tail & -> & Htail).
  apply (cm_lookup_entry [] _ (Translate.mkParam "code" (Some code) None None)).
  intros x [<- | Hx]; [discriminate |].
  destruct (Htail x Hx) as [-> | ->]; discriminate.
Qed.

Lemma body_system (code system : string) (target : option string) (reverse : option bool) :
  Translate.prop (parseParameters (Translate.body code system target reverse)) "system"
  = VString system.
Proof.
  destruct (body_shape code system target reverse) as (tail & -> & Htail).
  apply (cm_lookup_entry [Translate.mkParam "code" (Some code) None None] _
           (Translate.mkParam "system" None (Some system) None)).
  intros x Hx. destruct (Htail x Hx) as [-> | ->]; discriminate.
Qed.

(** The route asks for a [system] but never looks at its value, nor at
    [target] or [reverse]: two requests for the same code through the
    same concept map are answered alike, whatever source system, target
    system and direction they name. *)
Theorem conceptMap_translate_ignores_system (table : Table) (id code : string)
    (system1 system2 : string) (target1 target2 : option string)
    (reverse1 reverse2 : option bool) :
  system1 <> "" ->
  system2 <> "" ->
  handler table id (Translate.body code system1 target1 reverse1)
  = handler table id (Translate.body code system2 target2 reverse2).
Proof.
  intros H1 H2. unfold handler. cbv zeta.
  rewrite !body_code, !body_system. cbn [truthyVal].
  assert (T1 : truthyStr system1 = true).
  { unfold truthyStr. destruct (String.eqb system1 "") eqn:E; [| reflexivity].
    apply String.eqb_eq in E. contradiction. }
  assert (T2 : truthyStr system2 = true).
  { unfold truthyStr. destruct (String.eqb system2 "") eqn:E; [| reflexivity].
    apply String.eqb_eq in E. contradiction. }
  rewrite T1, T2. reflexivity.
Qed.

Lemma matchingElement_None (code : string) (groups : list MappingGroup.t) :
  matchingElement
    (map (fun g =>
            MappingGroup.mk (MappingGroup.source g) (MappingGroup.target g)
              (List.filter (fun e => String.eqb (MappingElement.code e) code)
                 (MappingGroup.elements g)))
       groups)
  = None
  <-> forall g e, In g groups -> In e (MappingGroup.elements g) ->
                  MappingElement.code e <> code.
Proof.
  induction groups as [| g groups IH]; cbn [map matchingElement MappingGroup.elements].
  - split; [intros _ g e [] | reflexivity].
  - destruct (List.filter _ (MappingGroup.elements g)) as [| e0 es] eqn:Ef.
    + rewrite IH. split.
      * intros H g' e [<- | Hg] He.
        -- intros Hc.
           assert (Hin : In e (List.filter
                                 (fun e => String.eqb (MappingElement.code e) code)
                                 (MappingGroup.elements g)))
             by (apply filter_In; split; [exact He | apply String.eqb_eq; exact Hc]).
           rewrite Ef in Hin. destruct Hin.
        -- apply (H g' e Hg He).
      * intros H g' e Hg He. apply (H g' e (or_intror Hg) He).
    + split; [discriminate |]. intros H. exfalso.
      assert (Hin : In e0 (List.filter
                             (fun e => String.eqb (MappingElement.code e) code)
                             (MappingGroup.elements g)))
        by (rewrite Ef; left; reflexivity).
      apply filter_In in Hin. destruct Hin as [He Hc]. apply String.eqb_eq in Hc.
      exact (H g e0 (or_introl eq_refl) He Hc).
Qed.

(** For a request with code and system, through a concept map that
    exists, the answer is [result = false] exactly when no element of the
    concept map carries the code. *)
Theorem conceptMap_translate_no_match_iff (table : Table) (id code system : string)
    (target : option string) (reverse : option bool) (row : string * ConceptMap.t) :
  code <> "" ->
  system <> "" ->
  find (fun row => String.eqb (fst row) id) table = Some row ->
  handler table id (Translate.body code system target reverse) = NoMatch
  <-> forall g e,
        In g (ConceptMap.groups (snd row)) ->
        In e (MappingGroup.elements g) ->
        MappingElement.code e <> code.
Proof.
  intros Hc Hs Hrow. unfold handler. cbv zeta.
  rewrite body_code, body_system. cbn [truthyVal].
  assert (T1 : truthyStr code = true).
  { unfold truthyStr. destruct (String.eqb code "") eqn:E; [| reflexivity].
    apply String.eqb_eq in E. contradiction. }
  assert (T2 : truthyStr system = true).
  { unfold truthyStr. destruct (String.eqb system "") eqn:E; [| reflexivity].
    apply String.eqb_eq in E. contradiction. }
  rewrite T1, T2. cbn [negb orb truthyVal asString]. rewrite T1. cbn [negb orb asString].
  unfold conceptMap_findUnique. rewrite Hrow. cbn [option_map].
  rewrite <- (matchingElement_None code (ConceptMap.groups (snd row))).
  cbn [Prisma.withElementsWhere ConceptMap.groups].
  destruct (matchingElement _); split; intros H; try reflexivity; discriminate H.
Qed.

Lemma matchingElement_first_edge (cm : ConceptMap.t) (code : string)
    (groups : list MappingGroup.t) (e : MappingElement.t) (t : MappingTarget.t) :
  matchingElement
    (map (fun g =>
            MappingGroup.mk (MappingGroup.source g) (MappingGroup.target g)
              (List.filter (fun e => String.eqb (MappingElement.code e) code)
                 (MappingGroup.elements g)))
       groups) = Some e ->
  head (MappingElement.targets e) = Some t ->
  head (flat_map (fun g =>
          flat_map (fun e => map (forwardEdge cm) (MappingElement.targets e))
            (List.filter (fun e => String.eqb (MappingElement.code e) code)
               (MappingGroup.elements g)))
          groups)
  = Some (forwardEdge cm t).
Proof.
  intros Hm Ht. induction groups as [| g groups IH]; [discriminate Hm |].
  cbn [map matchingElement MappingGroup.elements flat_map] in Hm |- *.
  destruct (List.filter _ (MappingGroup.elements g)) as [| e0 es].
  - cbn [flat_map app]. apply IH. exact Hm.
  - injection Hm as ->. cbn [flat_map].
    destruct (MappingElement.targets e) as [| t0 ts]; [discriminate Ht |].
    injection Ht as ->. reflexivity.
Qed.

(** When the route answers with a target code, that target is the first
    edge that the forward lookup of the terminology routes returns for
    the code in this concept map. *)
Theorem conceptMap_translate_is_first_forward_edge (table : Table) (id code system : string)
    (target : option string) (reverse : option bool) (row : string * ConceptMap.t)
    (codeSystems : list CodeSystem.t) (m : Match) (c : string) :
  find (fun row => String.eqb (fst row) id) table = Some row ->
  handler table id (Translate.body code system target reverse) = Matched m ->
  matchCode m = Some c ->
  exists edge,
    head (findMappingsForConcept (mkStore codeSystems [snd row]) code
            (ConceptMap.sourceUri (snd row)) None) = Some edge
    /\ targetCode edge = c
    /\ targetSystem edge = matchSystem m
    /\ targetDisplay edge = matchDisplay m.
Proof.
  intros Hrow. unfold handler. cbv zeta.
  rewrite body_code, body_system.
  destruct (negb _ || negb _); [discriminate |].
  assert (Hcode : asString (if truthyStr code then VString code else VUndefined) = code).
  { destruct (truthyStr code) eqn:E; [reflexivity |].
    apply truthyStr_false in E. subst code. reflexivity. }
  rewrite Hcode. unfold conceptMap_findUnique. rewrite Hrow. cbn [option_map].
  destruct row as [rid cm]. cbn [snd].
  cbn [Prisma.withElementsWhere ConceptMap.groups ConceptMap.targetUri].
  destruct (matchingElement _) as [e |] eqn:Hm; [| discriminate].
  intros H. injection H as <-. cbn [matchCode matchSystem matchDisplay].
  destruct (head (MappingElement.targets e)) as [t |] eqn:Ht; [| discriminate].
  cbn [option_map]. intros H. injection H as <-.
  exists (forwardEdge cm t).
  split; [| repeat split].
  rewrite findMappings_forwardEdges. unfold forwardEdges.
  cbn [conceptMaps List.filter]. unfold selectsb. rewrite String.eqb_refl.
  cbn [andb flat_map]. rewrite app_nil_r.
  apply (matchingElement_first_edge cm code (ConceptMap.groups cm) e t Hm Ht).
Qed.

End ConceptMapRouteFacts.

(** ** Rate limiting *)

Section RateLimitFacts.

Import RequestLogger.

Context (maxRequests windowMs : Z).

Lemma filter_length_le {A : Type} (p : A -> bool) (l : list A) :
  (length (List.filter p l) <= length l)%nat.
Proof.
  induction l as [| a l IH]; simpl; [lia |].
  destruct (p a); simpl; lia.
Qed.

(** One request: the verdict, what is recorded for the address, and what
    happens to the other addresses. *)
Lemma rateLimit_step (ip : string) (now : Z) (cleanup : bool)
    (store : gmap string RateData) :
  let kept := List.filter (fun time => now - windowMs <? time) (recorded store ip) in
  let r := rateLimit maxRequests windowMs ip now cleanup store in
  (fst r = Next <-> Z.of_nat (length kept) < maxRequests)
  /\ (passed (fst r) = true <-> Z.of_nat (length kept) < maxRequests)
  /\ is_Some (snd r !! ip)
  /\ recorded (snd r) ip = kept ++ (if passed (fst r) then [now] else [])
  /\ forall other,
       other <> ip ->
       snd r !! other = store !! other
       \/ (snd r !! other = None
           /\ cleanup = true
           /\ exists d, store !! other = Some d
                        /\ requests d = []
                        /\ windowMs * 2 < now - windowStart d).
Proof.
  intros kept r. subst r. unfold rateLimit.
  assert (Hreq : requests (default (mkRateData [] now) (store !! ip)) = recorded store ip).
  { unfold recorded. destruct (store !! ip); reflexivity. }
  cbn [requests windowStart]. rewrite Hreq. fold kept.
  destruct (maxRequests <=? Z.of_nat (length kept)) eqn:E; cbn [fst snd passed].
  - apply Z.leb_le in E.
    split; [split; [discriminate | lia] |].
    split; [split; [discriminate | lia] |].
    split; [rewrite lookup_insert_eq; eexists; reflexivity |].
    split.
    + unfold recorded. rewrite lookup_insert_eq. cbn [requests].
      rewrite app_nil_r. reflexivity.
    + intros other Ho. left. apply lookup_insert_ne. congruence.
  - apply Z.leb_gt in E.
    split; [split; [lia | reflexivity] |].
    split; [split; [lia | reflexivity] |].
    set (entry := mkRateData (kept ++ [now])
                    (windowStart (default (mkRateData [] now) (store !! ip)))).
    set (store2 := <[ip := entry]> (<[ip := _]> store)).
    assert (H2 : store2 !! ip = Some entry) by apply lookup_insert_eq.
    assert (Ho2 : forall other, other <> ip -> store2 !! other = store !! other).
    { intros other Ho. unfold store2.
      rewrite !lookup_insert_ne by congruence. reflexivity. }
    destruct cleanup.
    + assert (H3 : filter (fun e : string * RateData =>
                             ~ (requests (snd e) = []
                                /\ windowMs * 2 < now - windowStart (snd e)))
                     store2 !! ip = Some entry).
      { apply map_lookup_filter_Some_2; [exact H2 |].
        cbn [snd]. intros [Hn _]. unfold entry in Hn. cbn [requests] in Hn.
        destruct kept; discriminate Hn. }
      split; [rewrite H3; eexists; reflexivity |].
      split; [unfold recorded; rewrite H3; reflexivity |].
      intros other Ho.
      destruct (filter _ store2 !! other) as [d |] eqn:Hf.
      * left. apply map_lookup_filter_Some_1_1 in Hf.
        rewrite <- (Ho2 other Ho). symmetry. exact Hf.
      * apply map_lookup_filter_None_1 in Hf. rewrite (Ho2 other Ho) in Hf.
        destruct (store !! other) as [d |] eqn:Hs; [| left; reflexivity].
        right. split; [reflexivity |]. split; [reflexivity |].
        exists d. split; [reflexivity |].
        destruct Hf as [Hf | Hf]; [discriminate Hf |].
        specialize (Hf d eq_refl). cbn [snd] in Hf.
        destruct (requests d) as [| x xs] eqn:Hr.
        -- split; [reflexivity |].
           destruct (Z.lt_ge_cases (windowMs * 2) (now - windowStart d)) as [Hlt | Hge];
             [exact Hlt |].
           exfalso. apply Hf. intros [_ Hlt]. lia.
        -- exfalso. apply Hf. intros [Hn _]. discriminate Hn.
    + split; [rewrite H2; eexists; reflexivity |].
      split; [unfold recorded; rewrite H2; reflexivity |].
      intros other Ho. left. apply Ho2. exact Ho.
Qed.

(** A request passes exactly when fewer than [maxRequests] requests of
    its address are recorded inside the window that ends now; the times
    outside the window are forgotten, and the request itself is recorded
    if and only if it passes, whether or not the cleanup runs. *)
Theorem rate_limit_counts_the_window (ip : string) (now : Z) (cleanup : bool)
    (store : gmap string RateData) :
  let kept := List.filter (fun time => now - windowMs <? time) (recorded store ip) in
  let r := rateLimit maxRequests windowMs ip now cleanup store in
  (fst r = Next <-> Z.of_nat (length kept) < maxRequests)
  /\ recorded (snd r) ip = kept ++ (if passed (fst r) then [now] else []).
Proof.
  intros kept r.
  destruct (rateLimit_step ip now cleanup store) as (H1 & _ & _ & H4 & _).
  split; [exact H1 | exact H4].
Qed.

(** A request changes nothing for the other addresses, except that the
    cleanup may remove an address that has no recorded request and whose
    entry is older than two windows; the address of the request always
    keeps its entry. *)
Theorem rate_limit_cleanup_drops_only_idle (ip : string) (now : Z) (cleanup : bool)
    (store : gmap string RateData) :
  let r := rateLimit maxRequests windowMs ip now cleanup store in
  is_Some (snd r !! ip)
  /\ forall other,
       other <> ip ->
       snd r !! other = store !! other
       \/ (snd r !! other = None
           /\ cleanup = true
           /\ exists d, store !! other = Some d
                        /\ requests d = []
                        /\ windowMs * 2 < now - windowStart d).
Proof.
  intros r.
  destruct (rateLimit_step ip now cleanup store) as (_ & _ & H3 & _ & H5).
  split; [exact H3 | exact H5].
Qed.

(** If no address has more than [maxRequests] recorded requests, this
    still holds after a request. *)
Theorem rate_limit_keeps_counts_bounded (ip : string) (now : Z) (cleanup : bool)
    (store : gmap string RateData) :
  0 <= maxRequests ->
  (forall k, Z.of_nat (length (recorded store k)) <= maxRequests) ->
  forall k,
    Z.of_nat (length (recorded (snd (rateLimit maxRequests windowMs ip now cleanup store)) k))
    <= maxRequests.
Proof.
  intros Hmax Hinv k.
  destruct (rateLimit_step ip now cleanup store) as (_ & Hp & _ & Hrec & Hother).
  destruct (decide (k = ip)) as [-> | Hk].
  - rewrite Hrec. rewrite length_app.
    destruct (passed (fst (rateLimit maxRequests windowMs ip now cleanup store))) eqn:E.
    + pose proof (proj1 Hp eq_refl) as Hlt. simpl length. lia.
    + simpl length.
      pose proof (filter_length_le (fun time => now - windowMs <? time) (recorded store ip)).
      specialize (Hinv ip). lia.
  - destruct (Hother k Hk) as [Heq | (Hnone & _)].
    + unfold recorded. rewrite Heq. apply (Hinv k).
    + unfold recorded. rewrite Hnone. simpl. exact Hmax.
Qed.

Lemma filter_keeps_all_after (lo now : Z) (l : list Z) :
  now - windowMs <= lo ->
  Forall (fun time => lo < time) l ->
  List.filter (fun time => now - windowMs <? time) l = l.
Proof.
  intros Hlo Hall. apply filter_all. intros x Hx.
  rewrite List.Forall_forall in Hall. specialize (Hall x Hx).
  apply Z.ltb_lt. lia.
Qed.

Lemma serve_burst_from (ip : string) (lo : Z) (arrivals : list (Z * bool)) :
  Forall (fun a => lo < fst a /\ fst a - windowMs <= lo) arrivals ->
  forall (store : gmap string RateData) (room : nat),
    Forall (fun time => lo < time) (recorded store ip) ->
    Z.of_nat (length (recorded store ip)) + Z.of_nat room = maxRequests ->
    map passed (fst (serve maxRequests windowMs ip arrivals store))
    = repeat true (Nat.min (length arrivals) room)
      ++ repeat false (length arrivals - room).
Proof.
  induction 1 as [| [now cleanup] arrivals [Hlo Hhi] _ IH]; intros store room Hrec Hroom.
  - reflexivity.
  - cbn [serve fst] in *.
    destruct (rateLimit_step ip now cleanup store) as (_ & Hp & _ & Hnew & _).
    rewrite (filter_keeps_all_after lo now _ Hhi Hrec) in Hp, Hnew.
    destruct (rateLimit maxRequests windowMs ip now cleanup store) as [v store'] eqn:Es.
    cbn [fst snd] in Hp, Hnew.
    destruct (serve maxRequests windowMs ip arrivals store') as [vs store''] eqn:Er.
    cbn [fst map].
    assert (Hvs : map passed vs
                  = map passed (fst (serve maxRequests windowMs ip arrivals store')))
      by (rewrite Er; reflexivity).
    rewrite Hvs. destruct room as [| room].
    + assert (Ev : passed v = false).
      { destruct (passed v); [| reflexivity]. pose proof (proj1 Hp eq_refl). lia. }
      rewrite Ev in Hnew |- *. rewrite app_nil_r in Hnew.
      rewrite (IH store' 0%nat); [| rewrite Hnew; exact Hrec | rewrite Hnew; exact Hroom].
      rewrite Nat.min_0_r, Nat.sub_0_r. cbn [repeat app length Nat.min Nat.sub].
      reflexivity.
    + assert (Ev : passed v = true) by (apply (proj2 Hp); lia).
      rewrite Ev in Hnew |- *.
      rewrite (IH store' room).
      * reflexivity.
      * rewrite Hnew. apply Forall_app. split; [exact Hrec |].
        constructor; [exact Hlo | constructor].
      * rewrite Hnew, length_app. simpl length. lia.
Qed.

(** A burst from an address without recorded requests, all arrivals
    lying within one window: the first [maxRequests] requests pass and
    all later ones are throttled. *)
Theorem rate_limit_burst (ip : string) (lo : Z) (arrivals : list (Z * bool))
    (store : gmap string RateData) :
  0 <= maxRequests ->
  recorded store ip = [] ->
  Forall (fun a => lo < fst a /\ fst a - windowMs <= lo) arrivals ->
  map passed (fst (serve maxRequests windowMs ip arrivals store))
  = repeat true (Nat.min (length arrivals) (Z.to_nat maxRequests))
    ++ repeat false (length arrivals - Z.to_nat maxRequests).
Proof.
  intros Hmax Hrec Hall.
  apply (serve_burst_from ip lo arrivals Hall store (Z.to_nat maxRequests)).
  - rewrite Hrec. constructor.
  - rewrite Hrec. simpl length. lia.
Qed.

End RateLimitFacts.

(** ** API keys and permissions *)

Section AuthFacts.

Import Js RequestLogger Auth.

(** With the two middlewares in a row, a request gets through exactly
    when its key (the header's, or else the query's) is one of the valid
    keys and the route asks for no permission, or for [read] or [write];
    a refusal for the key is a 401 and a refusal for the permission a
    403. *)
Theorem api_key_access_granted_iff (validApiKeysEnv headerKey queryKey : option string)
    (requiredPermissions : list string) :
  let apiKey := if truthy headerKey then headerKey else queryKey in
  let validApiKeys :=
    if truthy validApiKeysEnv then split "," (default "" validApiKeysEnv)
    else ["default-api-key"] in
  let keyValid := truthy apiKey = true /\ In (default "" apiKey) validApiKeys in
  let permitted :=
    requiredPermissions = []
    \/ In "read" requiredPermissions \/ In "write" requiredPermissions in
  let v := apiKeyAccess validApiKeysEnv headerKey queryKey requiredPermissions in
  (v = Next <-> keyValid /\ permitted)
  /\ ((exists text, v = Respond 401 "login" text) <-> ~ keyValid)
  /\ (v = Respond 403 "forbidden" "Insufficient permissions" <-> keyValid /\ ~ permitted).
Proof.
  intros apiKey validApiKeys keyValid permitted v.
  assert (Hk : existsb (strictEq (default "" apiKey)) validApiKeys = true
               <-> In (default "" apiKey) validApiKeys).
  { rewrite existsb_exists. unfold strictEq. split.
    - intros (x & Hx & E). apply String.eqb_eq in E. subst x. exact Hx.
    - intros H. exists (default "" apiKey). split; [exact H | apply String.eqb_refl]. }
  assert (Hp : (Nat.eqb (length requiredPermissions) 0
                || existsb (fun perm => existsb (strictEq perm) ["read"; "write"])
                     requiredPermissions) = true
               <-> permitted).
  { unfold permitted. rewrite orb_true_iff, Nat.eqb_eq, existsb_exists. split.
    - intros [H | (perm & Hin & H)].
      + left. destruct requiredPermissions; [reflexivity | discriminate H].
      + right. cbn [existsb] in H. unfold strictEq in H.
        rewrite orb_false_r, orb_true_iff, !String.eqb_eq in H.
        destruct H as [-> | ->]; auto.
    - intros [-> | [H | H]]; [left; reflexivity | right | right].
      + exists "read". split; [exact H | reflexivity].
      + exists "write". split; [exact H | reflexivity]. }
  subst v. unfold apiKeyAccess, authenticateApiKey. fold apiKey. fold validApiKeys.
  destruct (truthy apiKey) eqn:Et; cbn [negb].
  - destruct (existsb (strictEq (default "" apiKey)) validApiKeys) eqn:Ee; cbn [negb].
    + assert (Kv : keyValid) by (split; [reflexivity | apply Hk; reflexivity]).
      cbn [authorizeAccess permissions].
      destruct (Nat.eqb (length requiredPermissions) 0 || _) eqn:Eh; cbn [negb].
      * assert (permitted) by (apply Hp; reflexivity).
        split; [tauto |]. split; [| split; [discriminate | tauto]].
        split; [intros [t Ht]; discriminate Ht | tauto].
      * assert (~ permitted) by (intros P; apply Hp in P; discriminate P).
        split; [split; [discriminate | tauto] |].
        split; [| tauto].
        split; [intros [t Ht]; discriminate Ht | tauto].
    + assert (Kv : ~ keyValid).
      { intros [_ Hin]. apply Hk in Hin. congruence. }
      split; [split; [discriminate | tauto] |].
      split; [| split; [discriminate | tauto]].
      split; [intros _; exact Kv | intros _; eexists; reflexivity].
  - assert (Kv : ~ keyValid) by (intros [Ht _]; discriminate Ht).
    split; [split; [discriminate | tauto] |].
    split; [| split; [discriminate | tauto]].
    split; [intros _; exact Kv | intros _; eexists; reflexivity].
Qed.

End AuthFacts.

(** ** The further properties at the sample data *)

Section MoreScenarios.

Import Fixtures.

Example score_bound_reached :
  calculateRelevanceScore
    (Concept.mk "Jwara" (Some "JWARA") (Some "jwara") (Some [Designation.mk None "jwara" None]))
    "jwara"
  = 210 + 60 * 1.
Proof. reflexivity. Qed.


(** The term [__] is not literal: as a pattern it stands for any two
    characters, while the scorer looks for two underscores. *)
Example underscores_are_not_literal :
  Like.literal "__" = false
  /\ calculateRelevanceScore (StoredConcept.load true Sample.fever) "__" = 0.
Proof. split; reflexivity. Qed.

Lemma forward_lookup_target_is_filter_witness :
  Sample.mmsUrl <> ""
  /\ findMappingsForConcept Sample.store "N001" Sample.namasteUrl (Some Sample.mmsUrl)
     = List.filter (fun m => String.eqb (targetSystem m) Sample.mmsUrl)
         (findMappingsForConcept Sample.store "N001" Sample.namasteUrl None).
Proof.
  split; [discriminate |].
  apply (forward_lookup_target_is_filter Sample.store "N001" Sample.namasteUrl Sample.mmsUrl).
  discriminate.
Defined.

Lemma forward_edge_has_reverse_edge_witness :
  exists r,
    In r (findReverseMappingsForConcept Sample.store (targetCode feverEdge)
            (targetSystem feverEdge))
    /\ sourceSystem r = Sample.namasteUrl
    /\ sourceCode r = "N001".
Proof.
  apply (forward_edge_has_reverse_edge Sample.store "N001" Sample.namasteUrl None feverEdge).
  vm_compute. left. reflexivity.
Defined.

Lemma reverse_edge_has_forward_edge_witness :
  exists m,
    In m (findMappingsForConcept Sample.store (sourceCode feverPatternReverseEdge)
            (sourceSystem feverPatternReverseEdge) (Some Sample.mmsUrl))
    /\ targetCode m = "TM26.0"
    /\ targetSystem m = Sample.mmsUrl
    /\ equivalence m = rev_equivalence feverPatternReverseEdge.
Proof.
  apply (reverse_edge_has_forward_edge Sample.store "TM26.0" Sample.mmsUrl
           feverPatternReverseEdge).
  vm_compute. left. reflexivity.
Defined.

Lemma autocomplete_results_from_requested_systems_witness :
  (exists systemKey,
     In systemKey (Autocomplete.systemsToSearch Sample.feverQuery)
     /\ Autocomplete.systemUrls systemKey = Some (Autocomplete.r_system feverResult)
     /\ Autocomplete.r_terminology feverResult = Js.toUpperCase systemKey)
  /\ (Js.truthy (Autocomplete.system Sample.feverQuery) = true ->
      Autocomplete.system Sample.feverQuery = Some (Autocomplete.r_system feverResult)).
Proof.
  apply (autocomplete_results_from_requested_systems Sample.store Sample.feverQuery
           "fever" feverResult).
  vm_compute. left. reflexivity.
Defined.



Lemma autocomplete_collects_at_most_50_per_system_witness :
  Z.of_nat (length (Autocomplete.collect Sample.crowdedStore Sample.wideQuery "ab"))
  <= Z.min (Autocomplete.parsedLimit Sample.wideQuery) 50
     * Z.of_nat (length (Autocomplete.systemsToSearch Sample.wideQuery)).
Proof.
  apply (autocomplete_collects_at_most_50_per_system Sample.crowdedStore Sample.wideQuery "ab").
  vm_compute. discriminate.
Defined.

Lemma autocomplete_keeps_all_within_limit_witness :
  Permutation (Autocomplete.limitedResults Sample.crowdedStore Sample.wideQuery "ab")
    (Autocomplete.collect Sample.crowdedStore Sample.wideQuery "ab").
Proof.
  apply (autocomplete_keeps_all_within_limit Sample.crowdedStore Sample.wideQuery "ab").
  vm_compute. discriminate.
Defined.

Lemma autocomplete_response_counts_witness :
  exists ps,
    Autocomplete.handler Sample.store Sample.feverQuery = Ok ps
    /\ In (PInteger "matches" (Z.of_nat (length (paramsNamed "match" ps)))) ps
    /\ resultFlag ps = Some (0 <? Z.of_nat (length (paramsNamed "match" ps))).
Proof.
  eexists. split; [vm_compute; reflexivity |].
  apply (autocomplete_response_counts Sample.store Sample.feverQuery).
  vm_compute. reflexivity.
Defined.

Lemma translate_requires_code_and_system_witness :
  Translate.handler Sample.store translateWithoutCode
  = Throw (ValidationError "code and system parameters are required").
Proof.
  apply (translate_requires_code_and_system Sample.store translateWithoutCode).
  intros ps H. injection H as <-. left.
  intros p [<- | []]. discriminate.
Defined.

Lemma translate_lists_every_mapping_witness :
  exists ps,
    Translate.handler Sample.store (Some Sample.translateFever) = Ok ps
    /\ resultFlag ps = Some true
    /\ exists code system display,
         Translate.prop (Translate.parseParameters (Some Sample.translateFever)) "code"
         = Js.VString code
         /\ Translate.prop (Translate.parseParameters (Some Sample.translateFever)) "system"
            = Js.VString system
         /\ paramsNamed "source" ps = [PCoding "source" (mkCoding system code display None)]
         /\ paramsNamed "match" ps
            = map Translate.matchPart
                (findMappingsForConcept Sample.store code system
                   (Translate.targetSystemOf
                      (Translate.prop
                         (Translate.parseParameters (Some Sample.translateFever)) "target")))
         /\ paramsNamed "match" ps <> [].
Proof.
  eexists. split; [vm_compute; reflexivity |]. split; [reflexivity |].
  apply (translate_lists_every_mapping Sample.store (Some Sample.translateFever)).
  - vm_compute. reflexivity.
  - reflexivity.
Defined.

Lemma dual_lookup_response_shape_witness :
  exists ps namastePart icd11Part,
    DualCodeLookup.handler Sample.store Sample.lookupUnknownNamaste = Ok ps
    /\ map paramName ps = "result" :: namastePart ++ icd11Part
    /\ (namastePart = [] \/ namastePart = ["namaste"]
        \/ namastePart = ["namaste"; "mappedIcd11Codes"])
    /\ (icd11Part = [] \/ icd11Part = ["icd11"]
        \/ icd11Part = ["icd11"; "mappedNamasteCodes"]).
Proof.
  destruct (dual_lookup_response_shape Sample.store Sample.lookupUnknownNamaste
              (PBoolean "result" true
               :: DualCodeLookup.lookupNamaste Sample.store Sample.lookupUnknownNamaste
               ++ DualCodeLookup.lookupIcd11 Sample.store Sample.lookupUnknownNamaste))
    as (n & i & H).
  - vm_compute. reflexivity.
  - eexists _, n, i. split; [vm_compute; reflexivity |]. exact H.
Defined.

Lemma dual_lookup_single_unmapped_code_witness :
  exists part,
    DualCodeLookup.handler Sample.store lookupUnmapped
    = Ok [PBoolean "result" false; PPart "namaste" part]
    /\ In (PCoding "code" (mkCoding (CodeSystem.url namasteCodeSystem)
                             (StoredConcept.code Sample.unmappedFinding)
                             (StoredConcept.display Sample.unmappedFinding) None)) part.
Proof.
  apply (dual_lookup_single_unmapped_code Sample.store lookupUnmapped "N900"
           namasteCodeSystem Sample.unmappedFinding).
  - reflexivity.
  - discriminate.
  - reflexivity.
  - vm_compute. reflexivity.
  - vm_compute. reflexivity.
Defined.

Lemma database_errors_answered_by_code_witness :
  ErrorHandler.showsStack (ErrorHandler.errorHandler true duplicateKey) = true
  /\ ErrorHandler.errorHandler false duplicateKeyOnName
     = ErrorHandler.errorHandler false duplicateKey.
Proof.
  destruct (database_errors_answered_by_code true duplicateKey eq_refl) as (H1 & _ & _).
  destruct (database_errors_answered_by_code false duplicateKey eq_refl) as (_ & _ & H3).
  split; [exact H1 |].
  apply (H3 duplicateKeyOnName); reflexivity.
Defined.

Lemma validate_accepts_media_type_anywhere_witness :
  RequestLogger.validateFHIRRequest postWithCharset = RequestLogger.Next.
Proof.
  apply (validate_accepts_media_type_anywhere postWithCharset
           "text/html, " ";q=0.9" "" "; charset=utf-8" false true);
    reflexivity.
Defined.

Lemma conceptMap_translate_ignores_system_witness :
  ConceptMapRoute.handler conceptMapTable "cmfczxkcw0000pau5h8g5h76g"
    (Translate.body "N001" Sample.namasteUrl None None)
  = ConceptMapRoute.handler conceptMapTable "cmfczxkcw0000pau5h8g5h76g"
      (Translate.body "N001" Sample.unaniUrl (Some Sample.unaniUrl) (Some true)).
Proof.
  apply (conceptMap_translate_ignores_system conceptMapTable "cmfczxkcw0000pau5h8g5h76g"
           "N001" Sample.namasteUrl Sample.unaniUrl None (Some Sample.unaniUrl)
           None (Some true)); discriminate.
Defined.

Lemma conceptMap_translate_no_match_iff_witness :
  ConceptMapRoute.handler conceptMapTable "cmfczxkcw0000pau5h8g5h76g"
    (Translate.body "N900" Sample.namasteUrl None None)
  = ConceptMapRoute.NoMatch
  <-> forall g e,
        In g (ConceptMap.groups Sample.namasteToIcd11) ->
        In e (MappingGroup.elements g) ->
        MappingElement.code e <> "N900".
Proof.
  apply (conceptMap_translate_no_match_iff conceptMapTable "cmfczxkcw0000pau5h8g5h76g"
           "N900" Sample.namasteUrl None None
           ("cmfczxkcw0000pau5h8g5h76g", Sample.namasteToIcd11)).
  - discriminate.
  - discriminate.
  - reflexivity.
Defined.

Lemma conceptMap_translate_is_first_forward_edge_witness :
  exists edge,
    head (findMappingsForConcept (mkStore [] [Sample.namasteToIcd11]) "N001"
            (ConceptMap.sourceUri Sample.namasteToIcd11) None) = Some edge
    /\ targetCode edge = "MD11.0"
    /\ targetSystem edge = ConceptMapRoute.matchSystem feverMatch
    /\ targetDisplay edge = ConceptMapRoute.matchDisplay feverMatch.
Proof.
  apply (conceptMap_translate_is_first_forward_edge conceptMapTable
           "cmfczxkcw0000pau5h8g5h76g" "N001" Sample.namasteUrl None None
           ("cmfczxkcw0000pau5h8g5h76g", Sample.namasteToIcd11) [] feverMatch "MD11.0").
  - reflexivity.
  - vm_compute. reflexivity.
  - reflexivity.
Defined.

Lemma rate_limit_keeps_counts_bounded_witness :
  Z.of_nat (length (RequestLogger.recorded
                      (snd (RequestLogger.rateLimit 2 1000 "10.0.0.1" 10 true ∅))
                      "10.0.0.1"))
  <= 2.
Proof.
  apply (rate_limit_keeps_counts_bounded 2 1000 "10.0.0.1" 10 true ∅).
  - lia.
  - intros k. unfold RequestLogger.recorded. rewrite lookup_empty. simpl. lia.
Defined.

Lemma rate_limit_burst_witness :
  map RequestLogger.passed
    (fst (RequestLogger.serve 2 1000 "10.0.0.1" burst ∅))
  = [true; true; false].
Proof.
  apply (rate_limit_burst 2 1000 "10.0.0.1" 0 burst ∅).
  - lia.
  - unfold RequestLogger.recorded. rewrite lookup_empty. reflexivity.
  - repeat constructor; simpl; lia.
Defined.

End MoreScenarios.
